(** * CumulusCI task controller: [cumulusci/core/tasks.py]

    A shallow embedding of the [Task] base class (construction, option
    resolution, required-option validation, the [__call__] protocol) and of
    the error interceptor of [BaseTask], followed by the properties that the
    specification states about them.

    Conventions of the embedding.
    - Python values are the type [value]; a [dict] is an association list in
      insertion order (the iteration order of Python 3.7 and later) whose
      keys are strings.
    - [dict] objects that are reachable through more than one name live in a
      [heap] and are named by their location, so that two names for one
      object see each other's writes.
    - A method is a function of the instance and the world that ends in
      [Return] or in [Raise]; both carry the instance and the world, since a
      Python exception does not undo assignments made before it. *)

From Stdlib Require Import ZArith String List Lia.
From stdpp Require Import base gmap strings list fin_maps.

Open Scope string_scope.
Open Scope list_scope.
Open Scope stdpp_scope.

(** ** Values *)

#[warnings="-register-all"]
Inductive value : Type :=
  | VNone
  | VBool (b : bool)
  | VInt (z : Z)
  | VStr (s : string)
  | VList (l : list value).

(** [bool(v)] *)
Definition truthy (v : value) : bool :=
  match v with
  | VNone => false
  | VBool b => b
  | VInt z => negb (Z.eqb z 0)
  | VStr s => negb (String.eqb s "")
  | VList l => match l with [] => false | _ => true end
  end.

(** [v is True] *)
Definition is_True (v : value) : bool :=
  match v with VBool true => true | _ => false end.

(** ** Strings *)

(** [s.startswith(p)] on a [str] *)
Definition str_startswith (s p : string) : bool := String.prefix p s.

(** [s[n:]] *)
Fixpoint str_drop (n : nat) (s : string) : string :=
  match n, s with
  | O, _ => s
  | S n', String _ s' => str_drop n' s'
  | S _, EmptyString => EmptyString
  end.

(** [s.replace(old, new, 1)]: only the leftmost occurrence is replaced. *)
Fixpoint str_replace1 (s old new : string) : string :=
  if String.prefix old s then new +:+ str_drop (String.length old) s
  else match s with
       | EmptyString => EmptyString
       | String c s' => String c (str_replace1 s' old new)
       end.

(** [sep.join(l)] *)
Fixpoint str_join (sep : string) (l : list string) : string :=
  match l with
  | [] => ""
  | [x] => x
  | x :: rest => x +:+ sep +:+ str_join sep rest
  end.

(** ** Dictionaries *)

Abbreviation pydict V := (list (string * V)).

Section Dict.
Context {V : Type}.

(** [d.get(k)] *)
Fixpoint dict_get (d : pydict V) (k : string) : option V :=
  match d with
  | [] => None
  | (k', v) :: rest => if String.eqb k k' then Some v else dict_get rest k
  end.

(** [k in d] *)
Definition dict_mem (k : string) (d : pydict V) : bool :=
  match dict_get d k with Some _ => true | None => false end.

(** [d[k] = v]: an existing key keeps its place, a new one goes last. *)
Fixpoint dict_set (d : pydict V) (k : string) (v : V) : pydict V :=
  match d with
  | [] => [(k, v)]
  | (k', v') :: rest =>
      if String.eqb k k' then (k', v) :: rest
      else (k', v') :: dict_set rest k v
  end.

(** [d.update(other)] *)
Definition dict_update (d other : pydict V) : pydict V :=
  fold_left (fun acc kv => dict_set acc (fst kv) (snd kv)) other d.

(** [list(d.keys())] *)
Definition dict_keys (d : pydict V) : list string := map fst d.

(** A Python dict holds each key once. *)
Definition dict_wf (d : pydict V) : Prop := NoDup (dict_keys d).
End Dict.

(** ** Exceptions *)

Inductive exn_class : Type :=
  | TaskRequiresSalesforceOrg
  | TaskOptionsError
  | AttributeError
  | AssertionError
  | KeyboardInterrupt
  | SystemExit
  | GeneratorExit
  | UserException (name : string).

Record exn : Type := Exn { exn_cls : exn_class; exn_msg : string }.

(** [isinstance(e, Exception)]: what [except Exception] catches.  The three
    built-in classes that derive from [BaseException] alone are not caught. *)
Definition isinstance_Exception (e : exn) : bool :=
  match exn_cls e with
  | KeyboardInterrupt | SystemExit | GeneratorExit => false
  | _ => true
  end.

(** ** Objects and the world *)

Abbreviation loc := positive.

(** The org (credential) context, read through three attributes. *)
Record OrgConfig : Type := {
  username : value;
  org_id : value;
  scratch : value;
}.

(** [task_config.options] is [None] or a dict object. *)
Record TaskConfig : Type := { tc_options : option loc }.

(** Calls received by the error-reporting client [project_config.sentry].
    [captureException()] takes no argument: the client reads the exception
    being handled ([sys.exc_info()]). *)
Inductive sentry_call : Type :=
  | tags_context (tags : pydict value)
  | captureException (handled : option exn).

Record World : Type := {
  heap : gmap loc (pydict value);
  project_config : pydict value;
  sentry_calls : list sentry_call;
  log : list (string * list value);
  exc_info : option exn;
}.

Definition set_heap (h : gmap loc (pydict value)) (w : World) : World :=
  {| heap := h; project_config := project_config w;
     sentry_calls := sentry_calls w; log := log w; exc_info := exc_info w |}.

Definition set_project_config (pc : pydict value) (w : World) : World :=
  {| heap := heap w; project_config := pc;
     sentry_calls := sentry_calls w; log := log w; exc_info := exc_info w |}.

Definition set_sentry_calls (cs : list sentry_call) (w : World) : World :=
  {| heap := heap w; project_config := project_config w;
     sentry_calls := cs; log := log w; exc_info := exc_info w |}.

Definition set_log (lg : list (string * list value)) (w : World) : World :=
  {| heap := heap w; project_config := project_config w;
     sentry_calls := sentry_calls w; log := lg; exc_info := exc_info w |}.

Definition set_exc_info (e : option exn) (w : World) : World :=
  {| heap := heap w; project_config := project_config w;
     sentry_calls := sentry_calls w; log := log w; exc_info := e |}.

(** The attributes of a task instance.  [logger] and [options] do not exist
    until [_init_logger] and [_init_options] have assigned them. *)
Record TaskObject : Type := {
  task_config : TaskConfig;
  org_config : option OrgConfig;
  return_values : loc;
  result : value;
  flow : option string;
  logger : option string;
  options : option loc;
}.

Definition set_result (v : value) (t : TaskObject) : TaskObject :=
  {| task_config := task_config t; org_config := org_config t;
     return_values := return_values t; result := v; flow := flow t;
     logger := logger t; options := options t |}.

Definition set_logger (lg : string) (t : TaskObject) : TaskObject :=
  {| task_config := task_config t; org_config := org_config t;
     return_values := return_values t; result := result t; flow := flow t;
     logger := Some lg; options := options t |}.

Definition set_options (l : loc) (t : TaskObject) : TaskObject :=
  {| task_config := task_config t; org_config := org_config t;
     return_values := return_values t; result := result t; flow := flow t;
     logger := logger t; options := Some l |}.

(** ** Methods: state and exceptions *)

Inductive Result (A : Type) : Type :=
  | Return (a : A) (self : TaskObject) (w : World)
  | Raise (e : exn) (self : TaskObject) (w : World).
Arguments Return {A} a self w.
Arguments Raise {A} e self w.

Definition M (A : Type) : Type := TaskObject -> World -> Result A.

Definition ret {A} (a : A) : M A := fun self w => Return a self w.
Definition raise {A} (e : exn) : M A := fun self w => Raise e self w.
Definition bind {A B} (m : M A) (k : A -> M B) : M B :=
  fun self w =>
    match m self w with
    | Return a self' w' => k a self' w'
    | Raise e self' w' => Raise e self' w'
    end.

#[export] Instance M_ret : MRet M := @ret.
#[export] Instance M_bind : MBind M := fun A B k m => bind m k.

Definition get_self : M TaskObject := fun self w => Return self self w.
Definition get_world : M World := fun self w => Return w self w.
Definition modify_self (f : TaskObject -> TaskObject) : M unit :=
  fun self w => Return tt (f self) w.
Definition modify_world (f : World -> World) : M unit :=
  fun self w => Return tt self (f w).

(** ** Task types

    What a subclass declares: the class attributes, and the hooks that the
    base class leaves to be overridden.  Every other method below is the one
    [Task] defines. *)

Record TaskClass : Type := {
  class_name : string;
  task_options : option (pydict (pydict value));
  salesforce_task : bool;
  _init_mixins : M unit;
  _update_credentials : M unit;
  _init_task : M unit;
  _process_exception : exn -> M unit;
  _run_task : M value;
}.

(** Reading an attribute that has not been assigned yet. *)
Definition no_attribute (cls : TaskClass) (attr : string) : exn :=
  Exn AttributeError
      ("'" +:+ class_name cls +:+ "' object has no attribute '" +:+ attr +:+ "'").

Definition self_logger (cls : TaskClass) : M string :=
  fun self w =>
    match logger self with
    | Some lg => Return lg self w
    | None => Raise (no_attribute cls "logger") self w
    end.

Definition self_options (cls : TaskClass) : M loc :=
  fun self w =>
    match options self with
    | Some l => Return l self w
    | None => Raise (no_attribute cls "options") self w
    end.

(** The dict behind a reference; a reference never dangles in Python. *)
Definition deref (l : loc) : M (pydict value) :=
  fun self w => Return (default [] (heap w !! l)) self w.

(** [self.logger.info(fmt, *args)] *)
Definition logger_info (cls : TaskClass) (fmt : string) (args : list value) : M unit :=
  _ ← self_logger cls;
  modify_world (fun w => set_log (log w ++ [(fmt, args)]) w).

(** *** [Task._init_logger] *)
Definition _init_logger : M unit :=
  modify_self (set_logger "cumulusci.core.tasks").

(** *** [Task._init_options] *)

(** [getattr(obj, attr, dflt)] *)
Definition getattr3 (obj : pydict value) (attr : string) (dflt : value) : value :=
  default dflt (dict_get obj attr).

(** The body of the [for] loop, on the dict [self.options] refers to.  A
    value that is not a [str] has no [startswith]: the attribute access
    raises [AttributeError] and the [except] clause passes. *)
Definition init_options_step (pc : pydict value) (d : pydict value)
    (item : string * value) : pydict value :=
  match item with
  | (option, VStr value) =>
      if str_startswith value "$project_config." then
        let attr := str_replace1 value "$project_config." "" in
        dict_set d option (getattr3 pc attr VNone)
      else d
  | (_, _) => d
  end.

Definition _init_options (kwargs : pydict value) : M unit :=
  fun self w =>
    (* self.options = self.task_config.options; if None: a new dict *)
    let '(l, h) :=
      match tc_options (task_config self) with
      | Some l => (l, heap w)
      | None => let l := fresh (dom (heap w)) in (l, <[l := []]> (heap w))
      end in
    (* if kwargs: self.options.update(kwargs) *)
    let h :=
      match kwargs with
      | [] => h
      | _ => alter (fun d => dict_update d kwargs) l h
      end in
    (* for option, value in list(self.options.items()): ... *)
    let items := default [] (h !! l) in
    let h :=
      fold_left
        (fun h item => alter (fun d => init_options_step (project_config w) d item) l h)
        items h in
    Return tt (set_options l self) (set_heap h w).

(** *** [Task.get_task_options] *)
Definition get_task_options (cls : TaskClass) : M (pydict (pydict value)) :=
  match task_options cls with
  | Some task_options => mret task_options
  | None =>
      raise (Exn AssertionError
               ("'" +:+ class_name cls
                +:+ "' needs a task_config or to override get task config!"))
  end.

(** *** [Task._validate_options] *)

(** [config.get('required') is True] *)
Definition required_is_True (config : pydict value) : bool :=
  match dict_get config "required" with
  | Some v => is_True v
  | None => false
  end.

(** The [for] loop; [self.options] is read only once a required option is
    met, as the [and] of the source short-circuits. *)
Fixpoint collect_missing (cls : TaskClass) (items : list (string * pydict value))
    (missing_required : list string) : M (list string) :=
  match items with
  | [] => mret missing_required
  | (name, config) :: rest =>
      if required_is_True config then
        l ← self_options cls;
        d ← deref l;
        if negb (dict_mem name d)
        then collect_missing cls rest (missing_required ++ [name])
        else collect_missing cls rest missing_required
      else collect_missing cls rest missing_required
  end.

Definition options_error_message (cls : TaskClass) (missing_required : list string) : string :=
  class_name cls +:+ " requires the options (" +:+ str_join ", " missing_required
  +:+ ") and no values were provided".

Definition _validate_options (cls : TaskClass) : M unit :=
  task_options ← get_task_options cls;
  missing_required ← collect_missing cls task_options [];
  match missing_required with
  | [] => mret tt
  | _ => raise (Exn TaskOptionsError (options_error_message cls missing_required))
  end.

(** *** [Task._log_begin] *)
Definition _log_begin (cls : TaskClass) : M unit :=
  logger_info cls "Beginning task: %s" [VStr (class_name cls)];;
  self ← get_self;
  (if salesforce_task cls && negb (bool_decide (is_Some (flow self))) then
     match org_config self with
     | Some oc =>
         logger_info cls "%15s %s" [VStr "As user:"; username oc];;
         logger_info cls "%15s %s" [VStr "In org:"; org_id oc]
     | None =>
         raise (Exn AttributeError "'NoneType' object has no attribute 'username'")
     end
   else mret tt);;
  logger_info cls "" [].

(** ** The controller: [__init__] and [__call__]

    The two entry points also record, in order, which methods they call on
    the instance.  The record is not a Python object: no method can read or
    change it. *)

Inductive call : Type :=
  | call_init_logger
  | call_init_mixins
  | call_init_options (kwargs : pydict value)
  | call_validate_options
  | call_update_credentials
  | call_init_task
  | call_log_begin
  | call_run_task
  | call_process_exception (e : exn).

Definition T (A : Type) : Type := TaskObject -> World -> Result A * list call.

Definition tret {A} (a : A) : T A := fun self w => (Return a self w, []).
Definition traise {A} (e : exn) : T A := fun self w => (Raise e self w, []).
Definition tbind {A B} (m : T A) (k : A -> T B) : T B :=
  fun self w =>
    match m self w with
    | (Return a self' w', tr) =>
        let '(r, tr') := k a self' w' in (r, tr ++ tr')
    | (Raise e self' w', tr) => (Raise e self' w', tr)
    end.

#[export] Instance T_ret : MRet T := @tret.
#[export] Instance T_bind : MBind T := fun A B k m => tbind m k.

(** [self.method(...)] *)
Definition invoke {A} (c : call) (m : M A) : T A :=
  fun self w => (m self w, [c]).

(** A plain statement of the controller *)
Definition stmt {A} (m : M A) : T A := fun self w => (m self w, []).

(** [try: body / except Exception as e: handler e] *)
Definition try_except_Exception {A} (body : T A) (handler : exn -> T A) : T A :=
  fun self w =>
    match body self w with
    | (Return a self' w', tr) => (Return a self' w', tr)
    | (Raise e self' w', tr) =>
        if isinstance_Exception e then
          let '(r, tr') := handler e self' (set_exc_info (Some e) w') in
          (r, tr ++ tr')
        else (Raise e self' w', tr)
    end.

(** *** [Task.__init__] *)

(** The assignments that open [__init__]: the new instance, and the heap
    with the new [return_values] dict. *)
Definition new_instance (task_config : TaskConfig) (org_config : option OrgConfig)
    (flow : option string) (w : World) : TaskObject :=
  {| task_config := task_config; org_config := org_config;
     return_values := fresh (dom (heap w)); result := VNone; flow := flow;
     logger := None; options := None |}.

Definition new_world (w : World) : World :=
  set_heap (<[fresh (dom (heap w)) := []]> (heap w)) w.

Definition __init__ (cls : TaskClass) (task_config : TaskConfig)
    (org_config : option OrgConfig) (flow : option string)
    (kwargs : pydict value) (w : World) : Result unit * list call :=
  let self := new_instance task_config org_config flow w in
  let w := new_world w in
  if salesforce_task cls && negb (bool_decide (is_Some org_config)) then
    traise (Exn TaskRequiresSalesforceOrg
              ("This task requires a Saleforce org_config but"
               +:+ " none was passed to the Task constructor")) self w
  else
    (invoke call_init_logger _init_logger;;
     invoke call_init_mixins (_init_mixins cls);;
     invoke (call_init_options kwargs) (_init_options kwargs);;
     invoke call_validate_options (_validate_options cls);;
     invoke call_update_credentials (_update_credentials cls);;
     invoke call_init_task (_init_task cls)) self w.

(** *** [Task.__call__]

    The bare [raise] of the handler raises [e] again, the exception being
    handled. *)
Definition __call__ (cls : TaskClass) : T loc :=
  try_except_Exception
    (invoke call_log_begin (_log_begin cls);;
     r ← invoke call_run_task (_run_task cls);
     stmt (modify_self (set_result r));;
     self ← stmt get_self;
     mret (return_values self))
    (fun e =>
       invoke (call_process_exception e) (_process_exception cls e);;
       traise e).

(** *** The class [Task] itself, and a subclass that overrides no hook *)
Definition Task_subclass (name : string) (opts : option (pydict (pydict value)))
    (sf : bool) : TaskClass :=
  {| class_name := name; task_options := opts; salesforce_task := sf;
     _init_mixins := mret tt;
     _update_credentials := mret tt;
     _init_task := mret tt;
     _process_exception := fun _ => mret tt;
     _run_task := mret VNone |}.


(** ** [BaseTask]: error reporting *)

Section BaseTask.
(** The error-reporting client is an external library.  What it answers
    to a call (a return value or an exception), given the calls it has
    received so far, is a parameter; so is [project_config.init_sentry()],
    which this module only calls. *)
Variable sentry_reply : list sentry_call -> sentry_call -> exn + value.
Variable init_sentry : M unit.

(** [self.project_config.sentry.<call>] *)
Definition sentry_invoke (c : sentry_call) : M value :=
  fun self w =>
    let w' := set_sentry_calls (sentry_calls w ++ [c]) w in
    match sentry_reply (sentry_calls w) c with
    | inr v => Return v self w'
    | inl e => Raise e self w'
    end.

(** [self.project_config.<attr>] *)
Definition project_config_getattr (attr : string) : M value :=
  fun self w =>
    match dict_get (project_config w) attr with
    | Some v => Return v self w
    | None =>
        Raise (Exn AttributeError
                 ("project_config has no attribute '" +:+ attr +:+ "'")) self w
    end.

(** [self.project_config.<attr> = v] *)
Definition project_config_setattr (attr : string) (v : value) : M unit :=
  modify_world (fun w => set_project_config (dict_set (project_config w) attr v) w).

(** The tags dict as the method builds it. *)
Definition sentry_tags (cls : TaskClass) (org_config : option OrgConfig)
    (options : pydict value) : pydict value :=
  let tags := [("task class", VStr (class_name cls))] in
  let tags :=
    match org_config with
    | Some oc =>
        let tags := dict_set tags "org username" (username oc) in
        dict_set tags "scratch org" (VBool (is_True (scratch oc)))
    | None => tags
    end in
  fold_left (fun tags kv => dict_set tags ("option_" +:+ fst kv) (snd kv))
            options tags.

(** *** [BaseTask._process_exception] *)
Definition BaseTask__process_exception (cls : TaskClass) (e : exn) : M unit :=
  use_sentry ← project_config_getattr "use_sentry";
  if truthy use_sentry then
    logger_info cls "Logging error to sentry.io" [];;
    self ← get_self;
    l ← self_options cls;
    options ← deref l;
    let tags := sentry_tags cls (org_config self) options in
    _ ← sentry_invoke (tags_context tags);
    w ← get_world;
    resp ← sentry_invoke (captureException (exc_info w));
    project_config_setattr "sentry_event" resp
  else mret tt.

(** *** [BaseTask._init_mixins] *)
Definition BaseTask__init_mixins (super_init_mixins : M unit) : M unit :=
  init_sentry;;
  super_init_mixins.

(** [BaseTask] overrides two hooks; [base] stands for what the classes
    after it in the method resolution order provide. *)
Definition BaseTask (base : TaskClass) : TaskClass :=
  {| class_name := class_name base;
     task_options := task_options base;
     salesforce_task := salesforce_task base;
     _init_mixins := BaseTask__init_mixins (_init_mixins base);
     _update_credentials := _update_credentials base;
     _init_task := _init_task base;
     _process_exception := BaseTask__process_exception base;
     _run_task := _run_task base |}.
End BaseTask.

(** ** Notions used to state the properties *)

(** A value that the loop of [_init_options] rewrites. *)
Definition is_reference (v : value) : bool :=
  match v with
  | VStr s => str_startswith s "$project_config."
  | _ => false
  end.

(** What the loop leaves in place of a value. *)
Definition resolve_value (pc : pydict value) (v : value) : value :=
  match v with
  | VStr s =>
      if str_startswith s "$project_config."
      then getattr3 pc (str_replace1 s "$project_config." "") VNone
      else v
  | _ => v
  end.

Definition resolve_item (pc : pydict value) (kv : string * value) : string * value :=
  (fst kv, resolve_value pc (snd kv)).

(** The options dict of the task config ([{}] when it is [None]) and the
    location [self.options] is bound to. *)
Definition config_options (self : TaskObject) (w : World) : pydict value :=
  match tc_options (task_config self) with
  | Some l => default [] (heap w !! l)
  | None => []
  end.

Definition options_loc (self : TaskObject) (w : World) : loc :=
  match tc_options (task_config self) with
  | Some l => l
  | None => fresh (dom (heap w))
  end.

(** The reference held by the task config points to a dict. *)
Definition config_ok (self : TaskObject) (w : World) : Prop :=
  match tc_options (task_config self) with
  | Some l => is_Some (heap w !! l)
  | None => True
  end.

(** The names of the declared options, in declaration order, that are
    marked required and are not keys of the resolved options [d]. *)
Definition missing_required_of (task_options : pydict (pydict value))
    (d : pydict value) : list string :=
  map fst
    (List.filter
       (fun item => required_is_True (snd item) && negb (dict_mem (fst item) d))
       task_options).

(** What the handler of [__call__] does with the outcome of the
    interceptor: the bare [raise] after a return, the interceptor's own
    exception otherwise. *)
Definition after_interceptor (e : exn) (r : Result unit) : Result loc :=
  match r with
  | Return _ s2 w2 => Raise e s2 w2
  | Raise e' s2 w2 => Raise e' s2 w2
  end.

Definition is_call_process_exception (c : call) : bool :=
  match c with call_process_exception _ => true | _ => false end.

Definition self_of {A} (r : Result A) : TaskObject :=
  match r with Return _ s _ | Raise _ s _ => s end.

Definition world_of {A} (r : Result A) : World :=
  match r with Return _ _ w | Raise _ _ w => w end.

(** [result], the reference [return_values] and the dict behind it are in
    [(self', w')] what they are in [(self, w)]. *)
Definition outputs_kept (self : TaskObject) (w : World)
    (self' : TaskObject) (w' : World) : Prop :=
  result self' = result self
  /\ return_values self' = return_values self
  /\ heap w' !! return_values self = heap w !! return_values self.

Definition option_tag (kv : string * value) : string * value :=
  ("option_" +:+ fst kv, snd kv).

(** The three tags that do not come from the options. *)
Definition identity_tags (cls : TaskClass) (org_config : option OrgConfig) : pydict value :=
  ("task class", VStr (class_name cls))
  :: match org_config with
     | Some oc =>
         [("org username", username oc);
          ("scratch org", VBool (is_True (scratch oc)))]
     | None => []
     end.

(** ** Sample task types and worlds, used to run the model *)

Module Samples.
Definition empty_world : World :=
  {| heap := ∅; project_config := []; sentry_calls := []; log := [];
     exc_info := None |}.

(** A project config with one attribute, [foo == 42], and the options
    dict of a task config at location [1]. *)
Definition world_with (options : pydict value) : World :=
  {| heap := {[ 1%positive := options ]};
     project_config := [("foo", VInt 42)];
     sentry_calls := []; log := []; exc_info := None |}.

Definition config_at_1 : TaskConfig := {| tc_options := Some 1%positive |}.
Definition config_None : TaskConfig := {| tc_options := None |}.

(** An instance as [__init__] leaves it before [_init_options]. *)
Definition fresh_instance (tc : TaskConfig) : TaskObject :=
  {| task_config := tc; org_config := None; return_values := 2%positive;
     result := VNone; flow := None; logger := Some "cumulusci.core.tasks";
     options := None |}.

(** [class Deploy(Task)] with two required options and an optional one. *)
Definition Deploy_options : pydict (pydict value) :=
  [("path", [("required", VBool true)]);
   ("note", [("description", VStr "free text")]);
   ("mode", [("required", VBool true)])].

Definition Deploy : TaskClass :=
  Task_subclass "Deploy" (Some Deploy_options) false.

(** [class Query(Task)], which needs an org. *)
Definition Query : TaskClass := Task_subclass "Query" (Some []) true.

Definition dev_org : OrgConfig :=
  {| username := VStr "dev@example.com"; org_id := VStr "00D000000000001";
     scratch := VBool true |}.

(** A subclass whose [_run_task] is [action]. *)
Definition with_action (cls : TaskClass) (action : M value) : TaskClass :=
  {| class_name := class_name cls; task_options := task_options cls;
     salesforce_task := salesforce_task cls;
     _init_mixins := _init_mixins cls;
     _update_credentials := _update_credentials cls;
     _init_task := _init_task cls;
     _process_exception := _process_exception cls;
     _run_task := action |}.

Definition boom : exn := Exn (UserException "ValueError") "boom".

Definition Failing : TaskClass := with_action Deploy (raise boom).
Definition Succeeding : TaskClass := with_action Deploy (mret (VInt 0)).

(** An instance of [Deploy] after construction. *)
Definition ready_instance : TaskObject :=
  {| task_config := config_at_1; org_config := None;
     return_values := 2%positive; result := VNone; flow := None;
     logger := Some "cumulusci.core.tasks"; options := Some 1%positive |}.

Definition ready_world : World :=
  {| heap := {[ 1%positive := [("path", VStr "/tmp"); ("mode", VNone)];
                2%positive := [] ]};
     project_config := [("foo", VInt 42); ("use_sentry", VBool true)];
     sentry_calls := []; log := []; exc_info := None |}.

(** A reporting client that answers every call. *)
Definition sentry_ok (_ : list sentry_call) (c : sentry_call) : exn + value :=
  match c with
  | tags_context _ => inr VNone
  | captureException _ => inr (VStr "event-1")
  end.

(** An action that records a value and then fails. *)
Definition record_then_fail : M value :=
  self ← get_self;
  modify_world
    (fun w => set_heap
                (alter (fun d => dict_set d "done" (VInt 1))
                       (return_values self) (heap w)) w);;
  raise boom.
End Samples.

(** ** Notions used to state the further properties *)

(** The methods that [__init__] calls, in the order of the source. *)
Definition init_calls (kwargs : pydict value) : list call :=
  [call_init_logger; call_init_mixins; call_init_options kwargs;
   call_validate_options; call_update_credentials; call_init_task].

(** The override names that a dict does not have yet, in the order given:
    the keys that [update] appends. *)
Definition new_keys (d kwargs : pydict value) : list string :=
  List.filter (fun k => negb (dict_mem k d)) (dict_keys kwargs).

(** The log records of [_log_begin]. *)
Definition record_beginning (cls : TaskClass) : string * list value :=
  ("Beginning task: %s", [VStr (class_name cls)]).

Definition record_user (oc : OrgConfig) : string * list value :=
  ("%15s %s", [VStr "As user:"; username oc]).

Definition record_org (oc : OrgConfig) : string * list value :=
  ("%15s %s", [VStr "In org:"; org_id oc]).

Definition record_blank : string * list value := ("", []).

Module MoreSamples.
(** A reporting client that is down: every call raises. *)
Definition sentry_down (_ : list sentry_call) (_ : sentry_call) : exn + value :=
  inl (Exn (UserException "ConnectionError") "sentry unreachable").

(** An [init_sentry] that fails. *)
Definition init_sentry_fails : M unit :=
  raise (Exn (UserException "ConnectionError") "sentry unreachable").

(** A task type whose interceptor fails. *)
Definition FailingInterceptor : TaskClass :=
  {| class_name := "Deploy"; task_options := Some Samples.Deploy_options;
     salesforce_task := false;
     _init_mixins := mret tt;
     _update_credentials := mret tt;
     _init_task := mret tt;
     _process_exception :=
       fun _ => raise (Exn (UserException "RuntimeError") "while reporting");
     _run_task := raise Samples.boom |}.

(** A world without the attribute [use_sentry] set to a true value. *)
Definition quiet_world : World :=
  {| heap := {[ 1%positive := [("path", VStr "/tmp"); ("mode", VNone)];
                2%positive := [] ]};
     project_config := [("use_sentry", VBool false)];
     sentry_calls := []; log := []; exc_info := None |}.

(** An instance of an org task, outside a flow, that has lost its org. *)
Definition orphan_instance : TaskObject :=
  {| task_config := Samples.config_at_1; org_config := None;
     return_values := 2%positive; result := VNone; flow := None;
     logger := Some "cumulusci.core.tasks"; options := Some 1%positive |}.

Definition org_instance : TaskObject :=
  {| task_config := Samples.config_at_1; org_config := Some Samples.dev_org;
     return_values := 2%positive; result := VNone; flow := None;
     logger := Some "cumulusci.core.tasks"; options := Some 1%positive |}.
End MoreSamples.

(** ** Proof automation *)

Ltac unfold_M :=
  unfold mbind, mret, M_bind, M_ret, bind, ret, raise,
    get_self, get_world, modify_self, modify_world in *.

Ltac unfold_T :=
  unfold mbind, mret, T_bind, T_ret, tbind, tret, traise, invoke, stmt in *.

(** * Properties *)

(** ** Dictionaries *)

Section DictFacts.
Context {V : Type}.
Implicit Types (d : pydict V) (k : string) (v : V).

Lemma dict_get_None_keys d k : dict_get d k = None <-> k ∉ dict_keys d.
Proof.
  induction d as [|[k' v'] d IH]; simpl.
  - split; [intros _; apply not_elem_of_nil | done].
  - rewrite not_elem_of_cons. destruct (String.eqb_spec k k') as [->|Hne].
    + split; [done | intros [? _]; done].
    + rewrite IH. tauto.
Qed.

Lemma dict_mem_keys d k : dict_mem k d = true <-> k ∈ dict_keys d.
Proof.
  unfold dict_mem. destruct (dict_get d k) eqn:E.
  - split; [intros _ | done].
    destruct (decide (k ∈ dict_keys d)) as [|Hn]; [done|].
    apply dict_get_None_keys in Hn. congruence.
  - apply dict_get_None_keys in E. split; [done | tauto].
Qed.

Lemma dict_get_set_eq d k v : dict_get (dict_set d k v) k = Some v.
Proof.
  induction d as [|[k' v'] d IH]; simpl.
  - by rewrite String.eqb_refl.
  - destruct (String.eqb_spec k k') as [->|Hne]; simpl.
    + by rewrite String.eqb_refl.
    + destruct (String.eqb_spec k k'); [done | apply IH].
Qed.

Lemma dict_get_set_ne d k k' v :
  k <> k' -> dict_get (dict_set d k v) k' = dict_get d k'.
Proof.
  intros Hne. induction d as [|[k0 v0] d IH]; simpl.
  - destruct (String.eqb_spec k' k); [congruence | done].
  - destruct (String.eqb_spec k k0) as [->|Hk]; simpl.
    + destruct (String.eqb_spec k' k0); [congruence | done].
    + destruct (String.eqb_spec k' k0); [done | apply IH].
Qed.

(** Assigning to a key that is not there appends an item. *)
Lemma dict_set_new d k v : k ∉ dict_keys d -> dict_set d k v = d ++ [(k, v)].
Proof.
  induction d as [|[k' v'] d IH]; simpl; [done|].
  rewrite not_elem_of_cons. intros [Hne Hd].
  destruct (String.eqb_spec k k'); [done|]. by rewrite IH.
Qed.

(** Assigning to the first occurrence of a key rewrites it in place. *)
Lemma dict_set_middle a b k v v' :
  k ∉ dict_keys a -> dict_set (a ++ (k, v) :: b) k v' = a ++ (k, v') :: b.
Proof.
  induction a as [|[k0 v0] a IH]; simpl.
  - intros _. by rewrite String.eqb_refl.
  - rewrite not_elem_of_cons. intros [Hne Ha].
    destruct (String.eqb_spec k k0); [done|]. by rewrite IH.
Qed.

Lemma dict_keys_set d k v :
  dict_keys (dict_set d k v)
  = if dict_mem k d then dict_keys d else dict_keys d ++ [k].
Proof.
  unfold dict_mem. induction d as [|[k' v'] d IH]; simpl; [done|].
  destruct (String.eqb_spec k k') as [->|Hne]; simpl; [done|].
  rewrite IH. by destruct (dict_get d k).
Qed.

Lemma dict_wf_set d k v : dict_wf d -> dict_wf (dict_set d k v).
Proof.
  unfold dict_wf. intros Hd. rewrite dict_keys_set.
  destruct (dict_mem k d) eqn:E; [done|].
  apply NoDup_app. split_and!; [done | | apply NoDup_singleton].
  intros x Hx Hk. apply list_elem_of_singleton in Hk as ->.
  apply dict_mem_keys in Hx. congruence.
Qed.

Lemma dict_wf_update d other : dict_wf d -> dict_wf (dict_update d other).
Proof.
  unfold dict_update. revert d.
  induction other as [|[k v] other IH]; intros d Hd; simpl; [done|].
  apply IH, dict_wf_set, Hd.
Qed.

(** [d.update(other)]: the entries of [other] win. *)
Lemma dict_get_update d other k :
  dict_wf other ->
  dict_get (dict_update d other) k
  = match dict_get other k with Some v => Some v | None => dict_get d k end.
Proof.
  unfold dict_update, dict_wf. revert d.
  induction other as [|[k0 v0] other IH]; intros d Hwf; simpl; [done|].
  apply NoDup_cons in Hwf as [Hk0 Hwf]. simpl in Hk0. rewrite IH by done.
  destruct (String.eqb_spec k k0) as [->|Hne].
  - apply dict_get_None_keys in Hk0. rewrite Hk0. apply dict_get_set_eq.
  - destruct (dict_get other k); [done|]. by apply dict_get_set_ne.
Qed.

Lemma dict_update_nil d : dict_update d [] = d.
Proof. reflexivity. Qed.
End DictFacts.

Lemma dict_keys_map {V W} (f : V -> W) (d : pydict V) :
  dict_keys (map (fun kv => (fst kv, f (snd kv))) d) = dict_keys d.
Proof.
  unfold dict_keys. rewrite map_map. by apply map_ext.
Qed.

Lemma dict_get_map {V W} (f : V -> W) (d : pydict V) k :
  dict_get (map (fun kv => (fst kv, f (snd kv))) d) k = f <$> dict_get d k.
Proof.
  induction d as [|[k' v'] d IH]; simpl; [done|].
  by destruct (String.eqb k k').
Qed.

(** A checker for [dict_wf] on a concrete dict. *)
Lemma dict_wf_decide {V} (d : pydict V) :
  bool_decide (NoDup (dict_keys d)) = true -> dict_wf d.
Proof. apply bool_decide_eq_true_1. Qed.

(** ** Option resolution *)

Lemma resolve_value_not_reference pc v :
  is_reference v = false -> resolve_value pc v = v.
Proof. destruct v; simpl; try done. by intros ->. Qed.

Lemma init_options_step_eq pc d k v :
  init_options_step pc d (k, v)
  = if is_reference v then dict_set d k (resolve_value pc v) else d.
Proof. destruct v; simpl; try done. by destruct (str_startswith _ _). Qed.

Lemma str_prefix_append p s : String.prefix p (p +:+ s) = true.
Proof.
  induction p as [|c p IH]; simpl.
  - by destruct s.
  - destruct (Ascii.ascii_dec c c); [apply IH | done].
Qed.

Lemma str_drop_append p s : str_drop (String.length p) (p +:+ s) = s.
Proof. induction p as [|c p IH]; simpl; [done | apply IH]. Qed.

Lemma str_replace1_unfold s old new :
  str_replace1 s old new
  = if String.prefix old s then new +:+ str_drop (String.length old) s
    else match s with
         | EmptyString => EmptyString
         | String c s' => String c (str_replace1 s' old new)
         end.
Proof. by destruct s. Qed.

(** [s.replace(p, '', 1)] on a string that starts with [p] leaves what
    follows the prefix. *)
Lemma str_replace1_prefix p s : str_replace1 (p +:+ s) p "" = s.
Proof.
  by rewrite str_replace1_unfold, str_prefix_append, str_drop_append.
Qed.

Lemma resolve_value_reference pc attr :
  resolve_value pc (VStr ("$project_config." +:+ attr))
  = getattr3 pc attr VNone.
Proof.
  unfold resolve_value, str_startswith.
  by rewrite str_prefix_append, str_replace1_prefix.
Qed.

Lemma dict_get_resolve pc d k :
  dict_get (map (resolve_item pc) d) k = resolve_value pc <$> dict_get d k.
Proof. apply (dict_get_map (resolve_value pc)). Qed.

Lemma dict_keys_resolve pc d : dict_keys (map (resolve_item pc) d) = dict_keys d.
Proof. apply (dict_keys_map (resolve_value pc)). Qed.

(** The loop over the snapshot [list(self.options.items())] resolves every
    item in place: keys and their order stay. *)
Lemma init_options_loop pc pre items :
  dict_wf (pre ++ items) ->
  fold_left (init_options_step pc) items (map (resolve_item pc) pre ++ items)
  = map (resolve_item pc) (pre ++ items).
Proof.
  revert pre. induction items as [|[k v] items IH]; intros pre Hwf; cbn [fold_left].
  - by rewrite !app_nil_r.
  - assert (Hk : k ∉ dict_keys (map (resolve_item pc) pre)).
    { rewrite dict_keys_resolve.
      unfold dict_wf, dict_keys in Hwf. rewrite map_app in Hwf.
      apply NoDup_app in Hwf as (_ & Hdisj & _).
      intros Hin. apply (Hdisj k Hin). simpl. apply list_elem_of_here. }
    assert (Hstep : init_options_step pc (map (resolve_item pc) pre ++ (k, v) :: items) (k, v)
                    = map (resolve_item pc) (pre ++ [(k, v)]) ++ items).
    { rewrite init_options_step_eq, map_app, <- app_assoc. simpl.
      change (resolve_item pc (k, v)) with (k, resolve_value pc v).
      destruct (is_reference v) eqn:E.
      - by apply dict_set_middle.
      - by rewrite resolve_value_not_reference. }
    rewrite Hstep, IH by (by rewrite <- app_assoc).
    by rewrite <- app_assoc.
Qed.

Lemma init_options_loop_all pc d :
  dict_wf d -> fold_left (init_options_step pc) d d = map (resolve_item pc) d.
Proof. intros Hwf. by apply (init_options_loop pc [] d). Qed.

(** Writing through a reference, item after item, is one write. *)
Lemma fold_alter {A} (f : pydict value -> A -> pydict value) (l : loc)
    (items : list A) (h : gmap loc (pydict value)) :
  fold_left (fun h item => alter (fun d => f d item) l h) items h
  = alter (fun d => fold_left f items d) l h.
Proof.
  revert h. induction items as [|item items IH]; intros h; simpl.
  - symmetry. by apply alter_id.
  - rewrite IH.
    apply (alter_alter_eq (fun d => fold_left f items d) (fun d => f d item)).
Qed.

Lemma alter_Some {A} (f : A -> A) (l : loc) (h : gmap loc A) (d : A) :
  h !! l = Some d -> alter f l h = <[l := f d]> h.
Proof.
  intros Hl. apply map_eq. intros j. rewrite lookup_alter, lookup_insert.
  case_decide; [by rewrite Hl | done].
Qed.

(** [_init_options] never raises; it binds [self.options] to the dict of
    the task config (a new one when there is none) and leaves in it the
    merged and resolved options. *)
Lemma _init_options_spec kwargs self w :
  config_ok self w ->
  dict_wf (config_options self w) ->
  _init_options kwargs self w
  = Return tt
      (set_options (options_loc self w) self)
      (set_heap
         (<[options_loc self w :=
              map (resolve_item (project_config w))
                  (dict_update (config_options self w) kwargs)]> (heap w))
         w).
Proof.
  unfold _init_options, config_ok, config_options, options_loc.
  intros Hok Hwf.
  set (pc := project_config w).
  assert (Hgen : forall (l : loc) (h : gmap loc (pydict value)) (d : pydict value),
            h !! l = Some d -> dict_wf d ->
            (let h1 := match kwargs with
                       | [] => h
                       | _ => alter (fun d => dict_update d kwargs) l h
                       end in
             fold_left
               (fun h item => alter (fun d => init_options_step pc d item) l h)
               (default [] (h1 !! l)) h1)
            = <[l := map (resolve_item pc) (dict_update d kwargs)]> h).
  { intros l h d Hl Hd. simpl.
    assert (H1 : match kwargs with
                 | [] => h
                 | _ => alter (fun d => dict_update d kwargs) l h
                 end = <[l := dict_update d kwargs]> h).
    { destruct kwargs as [|kv kwargs'].
      - by rewrite dict_update_nil, insert_id.
      - exact (alter_Some (fun d0 => dict_update d0 (kv :: kwargs')) l h d Hl). }
    rewrite H1, lookup_insert_eq. simpl.
    rewrite fold_alter, alter_insert_eq, init_options_loop_all; [done|].
    by apply dict_wf_update. }
  destruct (tc_options (task_config self)) as [l|].
  - destruct Hok as [d Hd]. rewrite Hd in Hwf |- *. simpl in Hwf.
    specialize (Hgen l (heap w) d Hd Hwf). cbv zeta in Hgen. by rewrite Hgen.
  - set (l := fresh (dom (heap w))).
    specialize (Hgen l (<[l := []]> (heap w)) [] (lookup_insert_eq _ _ _) Hwf).
    cbv zeta in Hgen. rewrite Hgen. by rewrite insert_insert_eq.
Qed.

(** ** Required-option validation *)

Lemma collect_missing_spec cls items acc self w l :
  options self = Some l ->
  collect_missing cls items acc self w
  = Return (acc ++ missing_required_of items (default [] (heap w !! l))) self w.
Proof.
  intros Hl. revert acc.
  induction items as [|[name config] items IH]; intros acc; simpl.
  - unfold_M. by rewrite app_nil_r.
  - unfold missing_required_of. simpl.
    destruct (required_is_True config); simpl; [|apply IH].
    unfold_M. unfold self_options, deref. rewrite Hl.
    destruct (dict_mem name _); simpl; [apply IH|].
    rewrite IH. by rewrite <- app_assoc.
Qed.

Lemma _validate_options_spec cls self w opts l :
  task_options cls = Some opts ->
  options self = Some l ->
  _validate_options cls self w
  = match missing_required_of opts (default [] (heap w !! l)) with
    | [] => Return tt self w
    | missing =>
        Raise (Exn TaskOptionsError (options_error_message cls missing)) self w
    end.
Proof.
  intros Hopts Hl. unfold _validate_options, get_task_options. rewrite Hopts.
  unfold_M. rewrite (collect_missing_spec _ _ _ _ _ l Hl). simpl.
  by destruct (missing_required_of _ _).
Qed.

Lemma elem_of_missing_required_of opts d name :
  name ∈ missing_required_of opts d
  <-> exists config,
        (name, config) ∈ opts /\ required_is_True config = true
        /\ dict_mem name d = false.
Proof.
  unfold missing_required_of.
  induction opts as [|[n c] opts IH]; simpl.
  - split; [intros H; by apply elem_of_nil in H|].
    intros (c & H & _). by apply elem_of_nil in H.
  - destruct (required_is_True c && negb (dict_mem n d)) eqn:E; simpl.
    + apply andb_true_iff in E as [Hr Hm]. apply negb_true_iff in Hm.
      rewrite elem_of_cons, IH. split.
      * intros [->|(c' & Hin & H)].
        -- exists c. split; [apply list_elem_of_here | done].
        -- exists c'. split; [by apply list_elem_of_further | done].
      * intros (c' & Hin & Hr' & Hm').
        apply elem_of_cons in Hin as [Heq|Hin].
        -- left. congruence.
        -- right. by exists c'.
    + rewrite IH. split.
      * intros (c' & Hin & H). exists c'. split; [by apply list_elem_of_further | done].
      * intros (c' & Hin & Hr' & Hm').
        apply elem_of_cons in Hin as [Heq|Hin]; [|by exists c'].
        injection Heq as -> ->. rewrite Hr', Hm' in E. done.
Qed.

Lemma missing_required_of_sublist opts d :
  sublist (missing_required_of opts d) (dict_keys opts).
Proof.
  unfold missing_required_of, dict_keys.
  induction opts as [|[n c] opts IH]; simpl; [constructor|].
  destruct (required_is_True c && negb (dict_mem n d)); simpl;
    by constructor.
Qed.

Lemma str_append_assoc (a b c : string) : (a +:+ b) +:+ c = a +:+ (b +:+ c).
Proof.
  induction a as [|x a IH]; [done|].
  change (String x ((a +:+ b) +:+ c) = String x (a +:+ (b +:+ c))).
  by rewrite IH.
Qed.

Lemma str_append_nil_r (a : string) : a +:+ "" = a.
Proof.
  induction a as [|x a IH]; [done|].
  change (String x (a +:+ "") = String x a). by rewrite IH.
Qed.

(** Every joined string occurs in the join. *)
Lemma str_join_names sep l name :
  name ∈ l -> exists a b, str_join sep l = a +:+ name +:+ b.
Proof.
  induction l as [|x l IH]; intros Hin; [by apply elem_of_nil in Hin|].
  apply elem_of_cons in Hin as [->|Hin].
  - destruct l as [|y l]; simpl.
    + exists "", "". simpl. by rewrite str_append_nil_r.
    + exists "", (sep +:+ str_join sep (y :: l)). reflexivity.
  - destruct (IH Hin) as (a & b & Hab).
    destruct l as [|y l]; [by apply elem_of_nil in Hin|].
    exists (x +:+ sep +:+ a), b.
    change (str_join sep (x :: y :: l)) with (x +:+ sep +:+ str_join sep (y :: l)).
    by rewrite Hab, !str_append_assoc.
Qed.

(** ** Claims about option resolution *)

(** C1, as the specification states it, fails: an option whose value is
    ['$project_config.missing'], where the project config has no attribute
    [missing], does not keep the literal string; it becomes [None]. *)
Lemma init_options_missing_attribute_gives_None :
  let self := Samples.fresh_instance Samples.config_at_1 in
  let w := Samples.world_with [("q", VStr "$project_config.missing")] in
  dict_get (project_config w) "missing" = None
  /\ exists self' w',
       _init_options [] self w = Return tt self' w'
       /\ options self' = Some 1%positive
       /\ heap w' !! 1%positive = Some [("q", VNone)]
       /\ heap w' !! 1%positive <> Some [("q", VStr "$project_config.missing")].
Proof.
  split; [reflexivity|]. eexists _, _.
  split; [vm_compute; reflexivity|]. split; [reflexivity|].
  split; [reflexivity | discriminate].
Qed.

(** C1 (amended).  For every option whose raw value, after the overrides
    are merged, is the string ['$project_config.<attr>'], [_init_options]
    returns without raising and leaves in its place the attribute [attr] of
    the project config when that attribute exists, and [None] when it does
    not. *)
Theorem init_options_resolves_reference kwargs self w k attr :
  config_ok self w ->
  dict_wf (config_options self w) ->
  dict_get (dict_update (config_options self w) kwargs) k
    = Some (VStr ("$project_config." +:+ attr)) ->
  exists self' w' l d',
    _init_options kwargs self w = Return tt self' w'
    /\ options self' = Some l
    /\ heap w' !! l = Some d'
    /\ dict_get d' k
       = Some (match dict_get (project_config w) attr with
               | Some v => v
               | None => VNone
               end).
Proof.
  intros Hok Hwf Hraw.
  eexists _, _, (options_loc self w), _.
  split; [by apply _init_options_spec|].
  split; [reflexivity|]. split; [apply lookup_insert_eq|].
  rewrite dict_get_resolve, Hraw. cbn [fmap option_fmap option_map].
  rewrite resolve_value_reference.
  unfold getattr3. by destruct (dict_get (project_config w) attr).
Qed.

Lemma init_options_resolves_reference_witness :
  let self := Samples.fresh_instance Samples.config_at_1 in
  let w := Samples.world_with [("p", VStr "$project_config.foo")] in
  exists self' w' l d',
    _init_options [] self w = Return tt self' w'
    /\ options self' = Some l
    /\ heap w' !! l = Some d'
    /\ dict_get d' "p" = Some (VInt 42).
Proof.
  apply (init_options_resolves_reference []
           (Samples.fresh_instance Samples.config_at_1)
           (Samples.world_with [("p", VStr "$project_config.foo")]) "p" "foo").
  - by eexists.
  - apply dict_wf_decide. reflexivity.
  - reflexivity.
Defined.

(** Construction of an instance of a class that overrides no hook, when
    [_init_options] and [_validate_options] return. *)
Lemma __init___Task_subclass name opts sf tc oc fl kwargs w self1 w1 :
  (sf && negb (bool_decide (is_Some oc))) = false ->
  _init_options kwargs
    (set_logger "cumulusci.core.tasks" (new_instance tc oc fl w)) (new_world w)
  = Return tt self1 w1 ->
  _validate_options (Task_subclass name opts sf) self1 w1 = Return tt self1 w1 ->
  __init__ (Task_subclass name opts sf) tc oc fl kwargs w
  = (Return tt self1 w1,
     [call_init_logger; call_init_mixins; call_init_options kwargs;
      call_validate_options; call_update_credentials; call_init_task]).
Proof.
  intros Hsf Hinit Hval. unfold __init__.
  change (salesforce_task (Task_subclass name opts sf)) with sf. rewrite Hsf.
  unfold_T. unfold _init_logger, modify_self. simpl.
  unfold M_ret, ret. simpl.
  rewrite Hinit, Hval. reflexivity.
Qed.

(** C5, as the specification states it, fails: with the config [{x: 1}]
    and the override [x='$project_config.foo'], the resolved value of [x]
    is not the override's value but the attribute [foo] of the project
    config, since overrides go through the resolution loop like every
    other option. *)
Lemma override_holding_a_reference_is_resolved :
  let self := Samples.fresh_instance Samples.config_at_1 in
  let w := Samples.world_with [("x", VInt 1)] in
  let kwargs := [("x", VStr "$project_config.foo")] in
  dict_get kwargs "x" = Some (VStr "$project_config.foo")
  /\ exists self' w',
       _init_options kwargs self w = Return tt self' w'
       /\ options self' = Some 1%positive
       /\ heap w' !! 1%positive = Some [("x", VInt 42)]
       /\ heap w' !! 1%positive <> Some [("x", VStr "$project_config.foo")].
Proof.
  split; [reflexivity|]. eexists _, _.
  split; [vm_compute; reflexivity|]. split; [reflexivity|].
  split; [reflexivity | discriminate].
Qed.

(** C5 (amended).  An option that the construction-time overrides name
    gets its resolved value from the override, whatever the config holds
    for it: the override's value itself, unless that value is a
    ['$project_config.<attr>'] string, in which case what that reference
    resolves to.  And with the definition [{path: {required: true}}], a
    config without options and the overrides [{path: "/tmp"}],
    construction succeeds with the resolved options [{path: "/tmp"}]. *)
Theorem overrides_take_precedence :
  (forall kwargs self w k v,
      config_ok self w ->
      dict_wf (config_options self w) ->
      dict_wf kwargs ->
      dict_get kwargs k = Some v ->
      exists self' w' l d',
        _init_options kwargs self w = Return tt self' w'
        /\ options self' = Some l
        /\ heap w' !! l = Some d'
        /\ dict_get d' k = Some (resolve_value (project_config w) v)
        /\ (is_reference v = false -> dict_get d' k = Some v))
  /\ (forall name sf tc oc fl w,
        (sf && negb (bool_decide (is_Some oc))) = false ->
        (tc_options tc = None
         \/ exists l, tc_options tc = Some l /\ heap w !! l = Some []) ->
        exists self' w' l tr,
          __init__ (Task_subclass name
                      (Some [("path", [("required", VBool true)])]) sf)
                   tc oc fl [("path", VStr "/tmp")] w
          = (Return tt self' w', tr)
          /\ options self' = Some l
          /\ heap w' !! l = Some [("path", VStr "/tmp")]).
Proof.
  split.
  - intros kwargs self w k v Hok Hwf Hkw Hk.
    eexists _, _, (options_loc self w), _.
    split; [by apply _init_options_spec|].
    split; [reflexivity|]. split; [apply lookup_insert_eq|].
    assert (H : dict_get
                  (map (resolve_item (project_config w))
                       (dict_update (config_options self w) kwargs)) k
                = Some (resolve_value (project_config w) v)).
    { by rewrite dict_get_resolve, dict_get_update, Hk. }
    split; [exact H|]. intros Hv.
    by rewrite H, resolve_value_not_reference.
  - intros name sf tc oc fl w Hsf Htc.
    set (self0 := set_logger "cumulusci.core.tasks" (new_instance tc oc fl w)).
    assert (Hok : config_ok self0 (new_world w)).
    { unfold config_ok. simpl. destruct Htc as [->|(l & -> & Hl)]; [done|].
      destruct (decide (fresh (dom (heap w)) = l)) as [<-|Hne].
      - by rewrite lookup_insert_eq.
      - rewrite lookup_insert_ne by done. by rewrite Hl. }
    assert (Hcfg : config_options self0 (new_world w) = []).
    { unfold config_options. simpl. destruct Htc as [->|(l & -> & Hl)]; [done|].
      destruct (decide (fresh (dom (heap w)) = l)) as [<-|Hne].
      - by rewrite lookup_insert_eq.
      - rewrite lookup_insert_ne by done. by rewrite Hl. }
    assert (Hinit := _init_options_spec [("path", VStr "/tmp")] self0 (new_world w) Hok).
    rewrite Hcfg in Hinit. specialize (Hinit (NoDup_nil_2 : dict_wf [])).
    eexists _, _, (options_loc self0 (new_world w)), _. split.
    + apply __init___Task_subclass; [done | exact Hinit |].
      erewrite _validate_options_spec; [|reflexivity|reflexivity].
      simpl. by rewrite lookup_insert_eq.
    + split; [reflexivity|]. simpl. by rewrite lookup_insert_eq.
Qed.

Lemma overrides_take_precedence_witness :
  (let self := Samples.fresh_instance Samples.config_at_1 in
   let w := Samples.world_with [("x", VInt 1)] in
   exists self' w' l d',
     _init_options [("x", VInt 2)] self w = Return tt self' w'
     /\ options self' = Some l
     /\ heap w' !! l = Some d'
     /\ dict_get d' "x" = Some (VInt 2)
     /\ (is_reference (VInt 2) = false -> dict_get d' "x" = Some (VInt 2)))
  /\ (exists self' w' l tr,
        __init__ (Task_subclass "Deploy"
                    (Some [("path", [("required", VBool true)])]) false)
                 Samples.config_None None None [("path", VStr "/tmp")]
                 Samples.empty_world
        = (Return tt self' w', tr)
        /\ options self' = Some l
        /\ heap w' !! l = Some [("path", VStr "/tmp")]).
Proof.
  split.
  - apply (proj1 overrides_take_precedence [("x", VInt 2)]
             (Samples.fresh_instance Samples.config_at_1)
             (Samples.world_with [("x", VInt 1)]) "x" (VInt 2)).
    + by eexists.
    + apply dict_wf_decide. reflexivity.
    + apply dict_wf_decide. reflexivity.
    + reflexivity.
  - apply (proj2 overrides_take_precedence "Deploy" false Samples.config_None
             None None Samples.empty_world).
    + reflexivity.
    + left. reflexivity.
Defined.




(** ** Claims about validation *)

(** C3.  When required options are missing from the resolved options (in
    particular when two or more are), [_validate_options] raises one
    [TaskOptionsError].  Its message joins the names of the missing
    options: these are exactly the declared options that are marked
    required and are not keys of the resolved options, each name occurs in
    the message, and they come in declaration order. *)
Theorem validate_options_one_aggregated_error cls self w opts l d :
  task_options cls = Some opts ->
  options self = Some l ->
  heap w !! l = Some d ->
  missing_required_of opts d <> [] ->
  let missing := missing_required_of opts d in
  let message :=
    class_name cls +:+ " requires the options (" +:+ str_join ", " missing
    +:+ ") and no values were provided" in
  _validate_options cls self w = Raise (Exn TaskOptionsError message) self w
  /\ (forall name,
        name ∈ missing
        <-> exists config,
              (name, config) ∈ opts /\ required_is_True config = true
              /\ dict_mem name d = false)
  /\ sublist missing (dict_keys opts)
  /\ (forall name, name ∈ missing -> exists a b, message = a +:+ name +:+ b).
Proof.
  intros Hopts Hl Hd Hmiss missing message.
  split; [|split; [|split]].
  - rewrite (_validate_options_spec cls self w opts l Hopts Hl), Hd. simpl.
    subst message missing.
    destruct (missing_required_of opts d); [done | reflexivity].
  - intros name. apply elem_of_missing_required_of.
  - apply missing_required_of_sublist.
  - intros name Hin.
    destruct (str_join_names ", " missing name Hin) as (a & b & Hab).
    exists (class_name cls +:+ " requires the options (" +:+ a),
           (b +:+ ") and no values were provided").
    unfold message. rewrite Hab. by rewrite !str_append_assoc.
Qed.

Lemma validate_options_one_aggregated_error_witness :
  let self := Samples.ready_instance in
  let w := Samples.world_with [("note", VStr "n")] in
  _validate_options Samples.Deploy self w
  = Raise (Exn TaskOptionsError
             "Deploy requires the options (path, mode) and no values were provided")
          self w
  /\ (forall name,
        name ∈ ["path"; "mode"]
        <-> exists config,
              (name, config)
                ∈ [("path", [("required", VBool true)]);
                   ("note", [("description", VStr "free text")]);
                   ("mode", [("required", VBool true)])]
              /\ required_is_True config = true
              /\ dict_mem name [("note", VStr "n")] = false)
  /\ sublist ["path"; "mode"] ["path"; "note"; "mode"]
  /\ (forall name,
        name ∈ ["path"; "mode"] ->
        exists a b,
          "Deploy requires the options (path, mode) and no values were provided"
          = a +:+ name +:+ b).
Proof.
  apply (validate_options_one_aggregated_error Samples.Deploy
           Samples.ready_instance (Samples.world_with [("note", VStr "n")])
           Samples.Deploy_options 1%positive [("note", VStr "n")]).
  - reflexivity.
  - reflexivity.
  - reflexivity.
  - discriminate.
Defined.

(** C10.  [_validate_options] looks at keys only: it returns if and only
    if every declared option marked required is a key of the resolved
    options, whatever the value under that key; in particular it returns
    when every required option is there with the value [None]. *)
Theorem validate_options_checks_keys_only cls self w opts l d :
  task_options cls = Some opts ->
  options self = Some l ->
  heap w !! l = Some d ->
  ((exists self' w', _validate_options cls self w = Return tt self' w')
   <-> (forall name config,
          (name, config) ∈ opts -> required_is_True config = true ->
          name ∈ dict_keys d))
  /\ ((forall name config,
          (name, config) ∈ opts -> required_is_True config = true ->
          dict_get d name = Some VNone) ->
      _validate_options cls self w = Return tt self w).
Proof.
  intros Hopts Hl Hd.
  rewrite (_validate_options_spec cls self w opts l Hopts Hl), Hd. simpl.
  assert (Hnil : missing_required_of opts d = []
                 <-> (forall name config,
                        (name, config) ∈ opts -> required_is_True config = true ->
                        name ∈ dict_keys d)).
  { split.
    - intros Hm name config Hin Hreq. apply dict_mem_keys.
      destruct (dict_mem name d) eqn:E; [done|].
      assert (Habs : name ∈ missing_required_of opts d)
        by (apply elem_of_missing_required_of; eauto).
      rewrite Hm in Habs. by apply elem_of_nil in Habs.
    - intros Hall. destruct (missing_required_of opts d) as [|n m] eqn:E; [done|].
      assert (Hn : n ∈ missing_required_of opts d)
        by (rewrite E; apply list_elem_of_here).
      apply elem_of_missing_required_of in Hn as (config & Hin & Hreq & Hmem).
      specialize (Hall n config Hin Hreq). apply dict_mem_keys in Hall.
      congruence. }
  split.
  - rewrite <- Hnil. destruct (missing_required_of opts d); split; try done.
    + intros _. by eexists _, _.
    + intros (? & ? & ?). discriminate.
  - intros Hnone.
    assert (Hm : missing_required_of opts d = []).
    { apply Hnil. intros name config Hin Hreq. apply dict_mem_keys.
      unfold dict_mem. by rewrite (Hnone name config Hin Hreq). }
    by rewrite Hm.
Qed.

Lemma validate_options_checks_keys_only_witness :
  let self := Samples.ready_instance in
  let w := Samples.ready_world in
  ((exists self' w', _validate_options Samples.Deploy self w = Return tt self' w')
   <-> (forall name config,
          (name, config)
            ∈ [("path", [("required", VBool true)]);
               ("note", [("description", VStr "free text")]);
               ("mode", [("required", VBool true)])] ->
          required_is_True config = true ->
          name ∈ dict_keys [("path", VStr "/tmp"); ("mode", VNone)]))
  /\ ((forall name config,
          (name, config)
            ∈ [("path", [("required", VBool true)]);
               ("note", [("description", VStr "free text")]);
               ("mode", [("required", VBool true)])] ->
          required_is_True config = true ->
          dict_get [("path", VStr "/tmp"); ("mode", VNone)] name = Some VNone) ->
      _validate_options Samples.Deploy self w = Return tt self w).
Proof.
  apply (validate_options_checks_keys_only Samples.Deploy
           Samples.ready_instance Samples.ready_world
           Samples.Deploy_options 1%positive
           [("path", VStr "/tmp"); ("mode", VNone)]).
  - reflexivity.
  - reflexivity.
  - reflexivity.
Defined.

(** A required option whose value is a reference to an attribute that the
    project config lacks resolves to [None], and validation accepts it. *)
Example required_option_resolved_to_None_is_accepted :
  exists self' w' tr,
    __init__ (Task_subclass "Deploy" (Some [("path", [("required", VBool true)])]) false)
             Samples.config_at_1 None None []
             (Samples.world_with [("path", VStr "$project_config.missing")])
    = (Return tt self' w', tr)
    /\ heap w' !! 1%positive = Some [("path", VNone)].
Proof. eexists _, _, _. split; [vm_compute; reflexivity | reflexivity]. Qed.

(** ** Claims about construction *)

(** C4.  A task type that requires an org, constructed without one, fails
    with [TaskRequiresSalesforceOrg] before it calls any method: no
    [_init_options] has run, the instance has no [options], and every dict
    that existed before the call (the options of the task config among
    them) is as it was. *)
Theorem init_without_org_fails_first cls tc fl kwargs w :
  salesforce_task cls = true ->
  exists self' w',
    __init__ cls tc None fl kwargs w
    = (Raise (Exn TaskRequiresSalesforceOrg
                "This task requires a Saleforce org_config but none was passed to the Task constructor")
             self' w',
       [])
    /\ options self' = None
    /\ task_config self' = tc
    /\ (forall l d, heap w !! l = Some d -> heap w' !! l = Some d)
    /\ project_config w' = project_config w
    /\ log w' = log w.
Proof.
  intros Hsf. eexists _, _. unfold __init__. rewrite Hsf. simpl.
  split; [reflexivity|]. repeat split.
  intros l d Hl. simpl. rewrite lookup_insert_ne; [done|].
  intros <-. pose proof (is_fresh (dom (heap w))) as Hfresh.
  apply not_elem_of_dom in Hfresh. congruence.
Qed.

Lemma init_without_org_fails_first_witness :
  exists self' w',
    __init__ Samples.Query Samples.config_at_1 None None [("x", VInt 2)]
             (Samples.world_with [("x", VInt 1)])
    = (Raise (Exn TaskRequiresSalesforceOrg
                "This task requires a Saleforce org_config but none was passed to the Task constructor")
             self' w',
       [])
    /\ options self' = None
    /\ task_config self' = Samples.config_at_1
    /\ (forall l d,
          heap (Samples.world_with [("x", VInt 1)]) !! l = Some d ->
          heap w' !! l = Some d)
    /\ project_config w' = project_config (Samples.world_with [("x", VInt 1)])
    /\ log w' = log (Samples.world_with [("x", VInt 1)]).
Proof.
  apply (init_without_org_fails_first Samples.Query Samples.config_at_1 None
           [("x", VInt 2)] (Samples.world_with [("x", VInt 1)])).
  reflexivity.
Defined.

(** ** The call protocol *)

Lemma logger_info_spec cls fmt args self w :
  logger_info cls fmt args self w
  = match logger self with
    | Some _ => Return tt self (set_log (log w ++ [(fmt, args)]) w)
    | None => Raise (no_attribute cls "logger") self w
    end.
Proof.
  unfold logger_info, self_logger. unfold_M. by destruct (logger self).
Qed.

(** [_log_begin] only writes to the log. *)
Lemma _log_begin_frame cls self w s0 w0 :
  _log_begin cls self w = Return tt s0 w0 ->
  s0 = self /\ heap w0 = heap w /\ project_config w0 = project_config w
  /\ sentry_calls w0 = sentry_calls w /\ exc_info w0 = exc_info w.
Proof.
  unfold _log_begin. unfold_M. rewrite logger_info_spec.
  destruct (logger self) as [lg|] eqn:Hlg; [|discriminate].
  destruct (salesforce_task cls && negb (bool_decide (is_Some (flow self)))).
  - destruct (org_config self); [|discriminate].
    rewrite logger_info_spec, Hlg, logger_info_spec, Hlg, logger_info_spec, Hlg.
    intros [= <- <-]. done.
  - rewrite logger_info_spec, Hlg. intros [= <- <-]. done.
Qed.

(** [__call__] when the action returns. *)
Lemma __call___action_returns cls self w s0 w0 v s1 w1 :
  _log_begin cls self w = Return tt s0 w0 ->
  _run_task cls s0 w0 = Return v s1 w1 ->
  __call__ cls self w
  = (Return (return_values s1) (set_result v s1) w1,
     [call_log_begin; call_run_task]).
Proof.
  intros Hlog Hrun. unfold __call__, try_except_Exception. unfold_T.
  rewrite Hlog, Hrun. reflexivity.
Qed.

(** [__call__] when the action raises. *)
Lemma __call___action_raises cls self w s0 w0 e s1 w1 :
  _log_begin cls self w = Return tt s0 w0 ->
  _run_task cls s0 w0 = Raise e s1 w1 ->
  __call__ cls self w
  = if isinstance_Exception e then
      (after_interceptor e
         (_process_exception cls e s1 (set_exc_info (Some e) w1)),
       [call_log_begin; call_run_task; call_process_exception e])
    else (Raise e s1 w1, [call_log_begin; call_run_task]).
Proof.
  intros Hlog Hrun. unfold __call__, try_except_Exception. unfold_T.
  rewrite Hlog, Hrun. destruct (isinstance_Exception e); [|reflexivity].
  by destruct (_process_exception cls e s1 (set_exc_info (Some e) w1)).
Qed.

(** C6.  When the action returns, [__call__] returns the instance's
    [return_values], has set [result] to what the action returned, and has
    called [_log_begin] and [_run_task] only: [_process_exception] is not
    called. *)
Theorem call_success_sets_result cls self w s0 w0 v s1 w1 :
  _log_begin cls self w = Return tt s0 w0 ->
  _run_task cls s0 w0 = Return v s1 w1 ->
  exists self',
    __call__ cls self w
    = (Return (return_values self') self' w1, [call_log_begin; call_run_task])
    /\ result self' = v
    /\ return_values self' = return_values s1
    /\ List.filter is_call_process_exception (snd (__call__ cls self w)) = [].
Proof.
  intros Hlog Hrun. exists (set_result v s1).
  rewrite (__call___action_returns _ _ _ _ _ _ _ _ Hlog Hrun). done.
Qed.

Lemma call_success_sets_result_witness :
  exists self',
    __call__ Samples.Succeeding Samples.ready_instance Samples.ready_world
    = (Return (return_values self') self'
         (set_log [("Beginning task: %s", [VStr "Deploy"]); ("", [])]
                  Samples.ready_world),
       [call_log_begin; call_run_task])
    /\ result self' = VInt 0
    /\ return_values self' = return_values Samples.ready_instance
    /\ List.filter is_call_process_exception
         (snd (__call__ Samples.Succeeding Samples.ready_instance
                        Samples.ready_world)) = [].
Proof.
  apply (call_success_sets_result Samples.Succeeding Samples.ready_instance
           Samples.ready_world Samples.ready_instance
           (set_log [("Beginning task: %s", [VStr "Deploy"]); ("", [])]
                    Samples.ready_world)
           (VInt 0) Samples.ready_instance).
  - reflexivity.
  - reflexivity.
Defined.

(** C2, as the specification states it, fails: when the action raises
    [KeyboardInterrupt], which [except Exception] does not catch, the
    exception goes through [__call__] and [_process_exception] is not
    called (here on a [BaseTask] with reporting enabled: nothing reaches
    the reporting client). *)
Lemma call_does_not_intercept_KeyboardInterrupt :
  let interrupt := Exn KeyboardInterrupt "" in
  let cls := BaseTask Samples.sentry_ok (mret tt)
               (Samples.with_action Samples.Deploy (raise interrupt)) in
  exists self' w' tr,
    __call__ cls Samples.ready_instance Samples.ready_world
    = (Raise interrupt self' w', tr)
    /\ tr = [call_log_begin; call_run_task]
    /\ List.filter is_call_process_exception tr = []
    /\ sentry_calls w' = [].
Proof.
  eexists _, _, _. split; [vm_compute; reflexivity|]. done.
Qed.

(** C2 (amended).  When the action raises an exception [e]:
    - if [e] is an instance of [Exception], [__call__] calls
      [_process_exception] exactly once, with [e], and, when that call
      returns, raises [e] itself again;
    - if [e] derives from [BaseException] only, [e] propagates as it is
      and [_process_exception] is not called;
    - in no case does [__call__] return. *)
Theorem call_intercepts_once_then_reraises cls self w s0 w0 e s1 w1 :
  _log_begin cls self w = Return tt s0 w0 ->
  _run_task cls s0 w0 = Raise e s1 w1 ->
  (isinstance_Exception e = true ->
   snd (__call__ cls self w)
   = [call_log_begin; call_run_task; call_process_exception e]
   /\ (forall s2 w2,
         _process_exception cls e s1 (set_exc_info (Some e) w1) = Return tt s2 w2 ->
         fst (__call__ cls self w) = Raise e s2 w2))
  /\ (isinstance_Exception e = false ->
      __call__ cls self w = (Raise e s1 w1, [call_log_begin; call_run_task]))
  /\ (forall a s w', fst (__call__ cls self w) <> Return a s w').
Proof.
  intros Hlog Hrun.
  rewrite (__call___action_raises _ _ _ _ _ _ _ _ Hlog Hrun).
  destruct (isinstance_Exception e); (split; [|split]); try done.
  - intros _. split; [reflexivity|]. intros s2 w2 ->. reflexivity.
  - intros a s w'. simpl.
    by destruct (_process_exception cls e s1 (set_exc_info (Some e) w1)).
Qed.

Lemma call_intercepts_once_then_reraises_witness :
  let w0 := set_log [("Beginning task: %s", [VStr "Deploy"]); ("", [])]
                    Samples.ready_world in
  isinstance_Exception Samples.boom = true
  /\ snd (__call__ Samples.Failing Samples.ready_instance Samples.ready_world)
     = [call_log_begin; call_run_task; call_process_exception Samples.boom]
  /\ fst (__call__ Samples.Failing Samples.ready_instance Samples.ready_world)
     = Raise Samples.boom Samples.ready_instance
             (set_exc_info (Some Samples.boom) w0).
Proof.
  pose proof (call_intercepts_once_then_reraises Samples.Failing
                Samples.ready_instance Samples.ready_world
                Samples.ready_instance
                (set_log [("Beginning task: %s", [VStr "Deploy"]); ("", [])]
                         Samples.ready_world)
                Samples.boom Samples.ready_instance
                (set_log [("Beginning task: %s", [VStr "Deploy"]); ("", [])]
                         Samples.ready_world)
                eq_refl eq_refl) as [Hcaught _].
  destruct (Hcaught eq_refl) as [Hcalls Hraise].
  split; [reflexivity|]. split; [exact Hcalls|].
  exact (Hraise _ _ eq_refl).
Defined.

(** The sample run in full: the interceptor of [Task] returns, and the
    exception that comes out is the one the action raised. *)
Example call_Failing :
  __call__ Samples.Failing Samples.ready_instance Samples.ready_world
  = (Raise Samples.boom Samples.ready_instance
       (set_exc_info (Some Samples.boom)
          (set_log [("Beginning task: %s", [VStr "Deploy"]); ("", [])]
                   Samples.ready_world)),
     [call_log_begin; call_run_task; call_process_exception Samples.boom]).
Proof. reflexivity. Qed.

(** *** What a failed call leaves in [result] and [return_values] *)

(** C8, as the specification states it, fails: an action that writes
    into [return_values] and then raises leaves what it wrote; after the
    failed call the mapping is not what it was before. *)
Lemma call_failure_keeps_what_the_action_wrote :
  let cls := Samples.with_action Samples.Deploy Samples.record_then_fail in
  let self := Samples.ready_instance in
  let w := Samples.ready_world in
  heap w !! return_values self = Some []
  /\ exists self' w' tr,
       __call__ cls self w = (Raise Samples.boom self' w', tr)
       /\ return_values self' = return_values self
       /\ heap w' !! return_values self' = Some [("done", VInt 1)]
       /\ heap w' !! return_values self' <> heap w !! return_values self.
Proof.
  split; [reflexivity|]. eexists _, _, _.
  split; [vm_compute; reflexivity|]. split; [reflexivity|].
  split; [reflexivity | discriminate].
Qed.

(** C8 (amended).  When the action raises, [__call__] itself assigns
    neither [result] nor [return_values]: the call ends in the state that
    the action left, or, for an instance of [Exception], in the state that
    [_process_exception] left after it.  Hence both are at their values of
    before the call whenever the action and the interceptor have not
    written them; what the action wrote before it raised stays. *)
Theorem call_failure_assigns_no_output cls self w s0 w0 e s1 w1 :
  _log_begin cls self w = Return tt s0 w0 ->
  _run_task cls s0 w0 = Raise e s1 w1 ->
  let intercepted := _process_exception cls e s1 (set_exc_info (Some e) w1) in
  let r := fst (__call__ cls self w) in
  (exists e', r = Raise e' (self_of r) (world_of r))
  /\ outputs_kept self w s0 w0
  /\ (isinstance_Exception e = false -> self_of r = s1 /\ world_of r = w1)
  /\ (isinstance_Exception e = true ->
      self_of r = self_of intercepted /\ world_of r = world_of intercepted)
  /\ (outputs_kept s0 w0 s1 w1 ->
      (isinstance_Exception e = true ->
       outputs_kept s1 w1 (self_of intercepted) (world_of intercepted)) ->
      outputs_kept self w (self_of r) (world_of r)).
Proof.
  intros Hlog Hrun intercepted r. subst r.
  rewrite (__call___action_raises _ _ _ _ _ _ _ _ Hlog Hrun).
  fold intercepted.
  destruct (_log_begin_frame _ _ _ _ _ Hlog) as (-> & Hheap & _).
  assert (Hlogkept : outputs_kept self w self w0).
  { unfold outputs_kept. by rewrite Hheap. }
  destruct (isinstance_Exception e); simpl.
  - split; [destruct intercepted; by eexists|]. split; [done|].
    split; [done|]. split; [by destruct intercepted|].
    intros (Hr1 & Hv1 & Hh1) Hint.
    destruct (Hint eq_refl) as (Hr2 & Hv2 & Hh2).
    assert (Hgoal : outputs_kept self w (self_of intercepted) (world_of intercepted)).
    { unfold outputs_kept. rewrite Hr2, Hr1, Hv2, Hv1.
      rewrite <- Hv1, Hh2, Hv1, Hh1, Hheap. done. }
    by destruct intercepted.
  - split; [by eexists|]. split; [done|]. split; [done|]. split; [done|].
    intros (Hr1 & Hv1 & Hh1) _.
    unfold outputs_kept. by rewrite Hr1, Hv1, Hh1, Hheap.
Qed.

Lemma call_failure_assigns_no_output_witness :
  let r := fst (__call__ Samples.Failing Samples.ready_instance
                         Samples.ready_world) in
  outputs_kept Samples.ready_instance Samples.ready_world (self_of r) (world_of r).
Proof.
  pose proof (call_failure_assigns_no_output Samples.Failing
                Samples.ready_instance Samples.ready_world
                Samples.ready_instance
                (set_log [("Beginning task: %s", [VStr "Deploy"]); ("", [])]
                         Samples.ready_world)
                Samples.boom Samples.ready_instance
                (set_log [("Beginning task: %s", [VStr "Deploy"]); ("", [])]
                         Samples.ready_world)
                eq_refl eq_refl) as (_ & _ & _ & _ & Hkept).
  apply Hkept.
  - repeat split.
  - intros _. repeat split.
Defined.

(** ** Error reporting *)

Lemma option_tag_not_identity cls oc k :
  "option_" +:+ k ∉ dict_keys (identity_tags cls oc).
Proof.
  unfold identity_tags, dict_keys. destruct oc; simpl.
  - rewrite !not_elem_of_cons. split_and!; try discriminate. apply not_elem_of_nil.
  - rewrite !not_elem_of_cons. split_and!; try discriminate. apply not_elem_of_nil.
Qed.

Lemma dict_keys_option_tags (d : pydict value) :
  dict_keys (map option_tag d) = map (String.append "option_") (dict_keys d).
Proof. unfold dict_keys. rewrite !map_map. by apply map_ext. Qed.

Lemma option_tags_fold t0 pre items :
  (forall k, "option_" +:+ k ∉ dict_keys t0) ->
  dict_wf (pre ++ items) ->
  fold_left (fun tags kv => dict_set tags ("option_" +:+ fst kv) (snd kv))
            items (t0 ++ map option_tag pre)
  = t0 ++ map option_tag (pre ++ items).
Proof.
  intros Ht0. revert pre.
  induction items as [|[k v] items IH]; intros pre Hwf; cbn [fold_left].
  - by rewrite app_nil_r.
  - cbn [fst snd]. rewrite dict_set_new.
    + rewrite <- app_assoc.
      change [("option_" +:+ k, v)] with (map option_tag [(k, v)]).
      rewrite <- map_app. rewrite IH by (by rewrite <- app_assoc).
      by rewrite <- app_assoc.
    + unfold dict_keys. rewrite map_app. fold (dict_keys t0).
      fold (dict_keys (map option_tag pre)). rewrite dict_keys_option_tags.
      rewrite not_elem_of_app. split; [apply Ht0|].
      intros Hin. apply list_elem_of_In, in_map_iff in Hin as (k' & Heq & Hin).
      apply (inj (String.append "option_")) in Heq. subst k'.
      unfold dict_wf, dict_keys in Hwf. rewrite map_app in Hwf.
      apply NoDup_app in Hwf as (_ & Hdisj & _).
      apply (Hdisj k); [by apply list_elem_of_In | apply list_elem_of_here].
Qed.

(** The tags dict holds the identity tags, then one tag per option. *)
Lemma sentry_tags_spec cls oc d :
  dict_wf d ->
  sentry_tags cls oc d = identity_tags cls oc ++ map option_tag d.
Proof.
  intros Hwf. unfold sentry_tags.
  assert (Hid : match oc with
                | Some oc0 =>
                    dict_set
                      (dict_set [("task class", VStr (class_name cls))]
                                "org username" (username oc0))
                      "scratch org" (VBool (is_True (scratch oc0)))
                | None => [("task class", VStr (class_name cls))]
                end = identity_tags cls oc) by (by destruct oc).
  cbv zeta. rewrite Hid.
  pose proof (option_tags_fold (identity_tags cls oc) [] d
                (option_tag_not_identity cls oc) Hwf) as Hfold.
  cbn [map app] in Hfold. by rewrite app_nil_r in Hfold.
Qed.

Lemma sentry_tags_wf cls oc d :
  dict_wf d -> dict_wf (identity_tags cls oc ++ map option_tag d).
Proof.
  intros Hwf. unfold dict_wf, dict_keys. rewrite map_app.
  fold (dict_keys (identity_tags cls oc)). fold (dict_keys (map option_tag d)).
  rewrite dict_keys_option_tags. apply NoDup_app. split_and!.
  - unfold identity_tags, dict_keys. destruct oc; simpl.
    + repeat (apply NoDup_cons; split;
              [rewrite ?not_elem_of_cons; split_and?;
               try discriminate; apply not_elem_of_nil|]).
      apply NoDup_nil_2.
    + apply NoDup_singleton.
  - intros x Hx Hin.
    apply list_elem_of_In, in_map_iff in Hin as (k' & <- & _).
    by apply option_tag_not_identity in Hx.
  - apply (NoDup_fmap_2 (String.append "option_")), Hwf.
Qed.

(** C9.  With reporting enabled ([use_sentry] true), the interceptor of
    [BaseTask], called while [e] is being handled, builds the tags
    - [task class]: the name of the task type,
    - when there is an org config, [org username]: its username, and
      [scratch org]: whether its [scratch] is [True],
    - for each resolved option, [option_<name>]: its value as it is,
    and nothing else, every key once; it hands the tags to the reporting
    client, asks it to capture the exception being handled, and stores
    what the client returns in [project_config.sentry_event]. *)
Theorem process_exception_reports_tags_and_error
    sentry_reply init_sentry base e self w use_sentry lg l d ack resp :
  dict_get (project_config w) "use_sentry" = Some use_sentry ->
  truthy use_sentry = true ->
  logger self = Some lg ->
  options self = Some l ->
  heap w !! l = Some d ->
  dict_wf d ->
  exc_info w = Some e ->
  let tags := identity_tags base (org_config self) ++ map option_tag d in
  sentry_reply (sentry_calls w) (tags_context tags) = inr ack ->
  sentry_reply (sentry_calls w ++ [tags_context tags]) (captureException (Some e))
    = inr resp ->
  exists w',
    _process_exception (BaseTask sentry_reply init_sentry base) e self w
    = Return tt self w'
    /\ sentry_calls w'
       = sentry_calls w ++ [tags_context tags; captureException (Some e)]
    /\ project_config w' = dict_set (project_config w) "sentry_event" resp
    /\ dict_get (project_config w') "sentry_event" = Some resp
    /\ heap w' = heap w
    /\ dict_wf tags.
Proof.
  intros Hus Htruthy Hlg Hl Hd Hwf Hexc tags Hack Hresp.
  eexists. split; [|split_and!].
  - simpl. unfold BaseTask__process_exception, project_config_getattr.
    unfold_M. rewrite Hus, Htruthy, logger_info_spec, Hlg.
    unfold self_options, deref. rewrite Hl. cbn [heap set_log].
    rewrite Hd. cbn [default from_option id].
    rewrite (sentry_tags_spec base (org_config self) d Hwf). fold tags.
    unfold sentry_invoke. cbn [sentry_calls set_log].
    rewrite Hack. cbn [sentry_calls set_sentry_calls exc_info set_log].
    rewrite Hexc, Hresp. unfold project_config_setattr, modify_world.
    reflexivity.
  - simpl. by rewrite <- app_assoc.
  - reflexivity.
  - simpl. apply dict_get_set_eq.
  - reflexivity.
  - by apply sentry_tags_wf.
Qed.

Lemma process_exception_reports_tags_and_error_witness :
  let self :=
    {| task_config := Samples.config_at_1; org_config := Some Samples.dev_org;
       return_values := 2%positive; result := VNone; flow := None;
       logger := Some "cumulusci.core.tasks"; options := Some 1%positive |} in
  let w := set_exc_info (Some Samples.boom) Samples.ready_world in
  let tags :=
    [("task class", VStr "Deploy");
     ("org username", VStr "dev@example.com");
     ("scratch org", VBool true);
     ("option_path", VStr "/tmp");
     ("option_mode", VNone)] in
  exists w',
    _process_exception (BaseTask Samples.sentry_ok (mret tt) Samples.Deploy)
                       Samples.boom self w
    = Return tt self w'
    /\ sentry_calls w' = [tags_context tags; captureException (Some Samples.boom)]
    /\ project_config w'
       = [("foo", VInt 42); ("use_sentry", VBool true);
          ("sentry_event", VStr "event-1")]
    /\ dict_get (project_config w') "sentry_event" = Some (VStr "event-1")
    /\ heap w' = heap w
    /\ dict_wf tags.
Proof.
  apply (process_exception_reports_tags_and_error Samples.sentry_ok (mret tt)
           Samples.Deploy Samples.boom
           {| task_config := Samples.config_at_1;
              org_config := Some Samples.dev_org;
              return_values := 2%positive; result := VNone; flow := None;
              logger := Some "cumulusci.core.tasks";
              options := Some 1%positive |}
           (set_exc_info (Some Samples.boom) Samples.ready_world)
           (VBool true) "cumulusci.core.tasks" 1%positive
           [("path", VStr "/tmp"); ("mode", VNone)] VNone (VStr "event-1")).
  - reflexivity.
  - reflexivity.
  - reflexivity.
  - reflexivity.
  - reflexivity.
  - apply dict_wf_decide. reflexivity.
  - reflexivity.
  - reflexivity.
  - reflexivity.
Defined.

(** A failing [BaseTask], from the call to the report: the exception that
    the client is asked to capture is the one the action raised, and it is
    the one that comes out of the call. *)
Example call_BaseTask_Failing :
  exists w',
    __call__ (BaseTask Samples.sentry_ok (mret tt) Samples.Failing)
             Samples.ready_instance Samples.ready_world
    = (Raise Samples.boom Samples.ready_instance w',
       [call_log_begin; call_run_task; call_process_exception Samples.boom])
    /\ sentry_calls w'
       = [tags_context [("task class", VStr "Deploy");
                        ("option_path", VStr "/tmp");
                        ("option_mode", VNone)];
          captureException (Some Samples.boom)]
    /\ dict_get (project_config w') "sentry_event" = Some (VStr "event-1").
Proof. eexists. split; [vm_compute; reflexivity|]. split; reflexivity. Qed.

(** * Further properties *)

(** ** More on dictionaries *)

Lemma dict_mem_set {V} (d : pydict V) k k' v :
  dict_mem k' (dict_set d k v) = dict_mem k' d || String.eqb k' k.
Proof.
  unfold dict_mem. destruct (String.eqb_spec k' k) as [->|Hne].
  - rewrite dict_get_set_eq. by rewrite orb_true_r.
  - rewrite dict_get_set_ne by done. by rewrite orb_false_r.
Qed.

Lemma new_keys_set_old (d kwargs : pydict value) k v :
  dict_mem k d = true -> new_keys (dict_set d k v) kwargs = new_keys d kwargs.
Proof.
  intros Hk. unfold new_keys. apply filter_ext. intros k'.
  rewrite dict_mem_set. destruct (String.eqb_spec k' k) as [->|_].
  - by rewrite Hk.
  - by rewrite orb_false_r.
Qed.

Lemma new_keys_set_new (d kwargs : pydict value) k v :
  k ∉ dict_keys kwargs -> new_keys (dict_set d k v) kwargs = new_keys d kwargs.
Proof.
  intros Hk. unfold new_keys. apply filter_ext_in. intros k' Hin.
  rewrite dict_mem_set. destruct (String.eqb_spec k' k) as [->|_].
  - by apply list_elem_of_In in Hin.
  - by rewrite orb_false_r.
Qed.

(** [d.update(kwargs)] keeps the keys of [d] where they are and appends
    the new ones. *)
Lemma dict_keys_update (d kwargs : pydict value) :
  dict_wf kwargs ->
  dict_keys (dict_update d kwargs) = dict_keys d ++ new_keys d kwargs.
Proof.
  unfold dict_update. revert d.
  induction kwargs as [|[k v] kwargs IH]; intros d Hwf; cbn [fold_left fst snd].
  - unfold new_keys. simpl. by rewrite app_nil_r.
  - apply NoDup_cons in Hwf as [Hk Hwf]. rewrite IH by done.
    rewrite dict_keys_set.
    change (new_keys d ((k, v) :: kwargs))
      with (if negb (dict_mem k d) then k :: new_keys d kwargs
            else new_keys d kwargs).
    destruct (dict_mem k d) eqn:E; simpl.
    + by rewrite new_keys_set_old.
    + rewrite new_keys_set_new by done. by rewrite <- app_assoc.
Qed.

Lemma dict_wf_resolve pc (d : pydict value) :
  dict_wf d -> dict_wf (map (resolve_item pc) d).
Proof. unfold dict_wf. by rewrite dict_keys_resolve. Qed.

Lemma dict_get_app {V} (a b : pydict V) k :
  dict_get (a ++ b) k
  = match dict_get a k with Some v => Some v | None => dict_get b k end.
Proof.
  induction a as [|[k' v'] a IH]; simpl; [done|].
  by destruct (String.eqb k k').
Qed.

(** Updating the empty dict with a dict gives that dict. *)
Lemma dict_update_onto (pre kwargs : pydict value) :
  dict_wf (pre ++ kwargs) -> dict_update pre kwargs = pre ++ kwargs.
Proof.
  unfold dict_update. revert pre.
  induction kwargs as [|[k v] kwargs IH]; intros pre Hwf; cbn [fold_left fst snd].
  - by rewrite app_nil_r.
  - rewrite dict_set_new.
    + rewrite IH by (by rewrite <- app_assoc). by rewrite <- app_assoc.
    + unfold dict_wf, dict_keys in Hwf. rewrite map_app in Hwf.
      apply NoDup_app in Hwf as (_ & Hdisj & _).
      intros Hin. apply (Hdisj k Hin). apply list_elem_of_here.
Qed.

(** ** More on option resolution *)

(** X1.  A merged option value that is not a string starting with
    ['$project_config.'] (an integer, a list, [None], any other string)
    goes through [_init_options] unchanged. *)
Theorem init_options_keeps_plain_values kwargs self w k v :
  config_ok self w ->
  dict_wf (config_options self w) ->
  dict_get (dict_update (config_options self w) kwargs) k = Some v ->
  is_reference v = false ->
  exists self' w' l d',
    _init_options kwargs self w = Return tt self' w'
    /\ options self' = Some l
    /\ heap w' !! l = Some d'
    /\ dict_get d' k = Some v.
Proof.
  intros Hok Hwf Hraw Hv.
  eexists _, _, (options_loc self w), _.
  split; [by apply _init_options_spec|].
  split; [reflexivity|]. split; [apply lookup_insert_eq|].
  rewrite dict_get_resolve, Hraw. cbn [fmap option_fmap option_map].
  by rewrite resolve_value_not_reference.
Qed.

Lemma init_options_keeps_plain_values_witness :
  let self := Samples.fresh_instance Samples.config_at_1 in
  let w := Samples.world_with [("n", VList [VInt 1; VStr "$project_config.foo"])] in
  exists self' w' l d',
    _init_options [] self w = Return tt self' w'
    /\ options self' = Some l
    /\ heap w' !! l = Some d'
    /\ dict_get d' "n" = Some (VList [VInt 1; VStr "$project_config.foo"]).
Proof.
  apply (init_options_keeps_plain_values []
           (Samples.fresh_instance Samples.config_at_1)
           (Samples.world_with [("n", VList [VInt 1; VStr "$project_config.foo"])])
           "n" (VList [VInt 1; VStr "$project_config.foo"])).
  - by eexists.
  - apply dict_wf_decide. reflexivity.
  - reflexivity.
  - reflexivity.
Defined.

(** X2.  [_init_options] neither drops nor invents an option: the
    resolved options have the keys of the config's options, in their
    order, followed by the override names that the config lacks, in the
    order given; every key occurs once. *)
Theorem init_options_keys kwargs self w :
  config_ok self w ->
  dict_wf (config_options self w) ->
  dict_wf kwargs ->
  exists self' w' l d',
    _init_options kwargs self w = Return tt self' w'
    /\ options self' = Some l
    /\ heap w' !! l = Some d'
    /\ dict_keys d'
       = dict_keys (config_options self w)
         ++ new_keys (config_options self w) kwargs
    /\ dict_wf d'.
Proof.
  intros Hok Hwf Hkw.
  eexists _, _, (options_loc self w), _.
  split; [by apply _init_options_spec|].
  split; [reflexivity|]. split; [apply lookup_insert_eq|]. split.
  - by rewrite dict_keys_resolve, dict_keys_update.
  - by apply dict_wf_resolve, dict_wf_update.
Qed.

Lemma init_options_keys_witness :
  let self := Samples.fresh_instance Samples.config_at_1 in
  let w := Samples.world_with [("x", VInt 1); ("p", VStr "$project_config.foo")] in
  exists self' w' l d',
    _init_options [("z", VNone); ("x", VInt 2)] self w = Return tt self' w'
    /\ options self' = Some l
    /\ heap w' !! l = Some d'
    /\ dict_keys d' = ["x"; "p"; "z"]
    /\ dict_wf d'.
Proof.
  apply (init_options_keys [("z", VNone); ("x", VInt 2)]
           (Samples.fresh_instance Samples.config_at_1)
           (Samples.world_with [("x", VInt 1); ("p", VStr "$project_config.foo")])).
  - by eexists.
  - apply dict_wf_decide. reflexivity.
  - apply dict_wf_decide. reflexivity.
Defined.

(** X3.  When the options of the task config are [None], [self.options]
    is a dict that did not exist before, it holds the overrides, resolved,
    in the order given, and every other dict is as it was. *)
Theorem init_options_without_config_options kwargs self w :
  tc_options (task_config self) = None ->
  dict_wf kwargs ->
  exists self' w' l,
    _init_options kwargs self w = Return tt self' w'
    /\ options self' = Some l
    /\ heap w !! l = None
    /\ heap w' !! l = Some (map (resolve_item (project_config w)) kwargs)
    /\ (forall l', l' <> l -> heap w' !! l' = heap w !! l').
Proof.
  intros Htc Hkw.
  assert (Hok : config_ok self w) by (unfold config_ok; by rewrite Htc).
  assert (Hcfg : config_options self w = [])
    by (unfold config_options; by rewrite Htc).
  pose proof (_init_options_spec kwargs self w Hok) as Hspec.
  rewrite Hcfg in Hspec. specialize (Hspec (NoDup_nil_2 : dict_wf [])).
  rewrite (dict_update_onto [] kwargs Hkw) in Hspec. simpl in Hspec.
  eexists _, _, (options_loc self w).
  split; [exact Hspec|]. split; [reflexivity|].
  unfold options_loc. rewrite Htc. split_and!.
  - apply not_elem_of_dom, is_fresh.
  - simpl. apply lookup_insert_eq.
  - intros l' Hl'. simpl. by apply lookup_insert_ne.
Qed.

Lemma init_options_without_config_options_witness :
  let self := Samples.fresh_instance Samples.config_None in
  let w := Samples.world_with [("x", VInt 1)] in
  exists self' w' l,
    _init_options [("p", VStr "$project_config.foo")] self w = Return tt self' w'
    /\ options self' = Some l
    /\ heap w !! l = None
    /\ heap w' !! l = Some [("p", VInt 42)]
    /\ (forall l', l' <> l -> heap w' !! l' = heap w !! l').
Proof.
  apply (init_options_without_config_options
           [("p", VStr "$project_config.foo")]
           (Samples.fresh_instance Samples.config_None)
           (Samples.world_with [("x", VInt 1)])).
  - reflexivity.
  - apply dict_wf_decide. reflexivity.
Defined.

(** X4.  Overrides leak from one instance to the next one built on the
    same task config: after [_init_options] has run for an instance with
    the override [k=v] ([v] not a reference), a second instance over the
    same task config, given no override at all, has [k=v] in its
    options. *)
Theorem init_options_overrides_reach_next_instance kwargs selfA selfB w l d k v :
  tc_options (task_config selfA) = Some l ->
  tc_options (task_config selfB) = Some l ->
  heap w !! l = Some d ->
  dict_wf d ->
  dict_wf kwargs ->
  dict_get kwargs k = Some v ->
  is_reference v = false ->
  exists selfA' wA selfB' wB dB,
    _init_options kwargs selfA w = Return tt selfA' wA
    /\ _init_options [] selfB wA = Return tt selfB' wB
    /\ options selfB' = Some l
    /\ heap wB !! l = Some dB
    /\ dict_get dB k = Some v.
Proof.
  intros HA HB Hd Hwf Hkw Hk Hv.
  assert (HokA : config_ok selfA w) by (unfold config_ok; rewrite HA; by eexists).
  assert (HcA : config_options selfA w = d)
    by (unfold config_options; by rewrite HA, Hd).
  pose proof (_init_options_spec kwargs selfA w HokA) as HspecA.
  rewrite HcA in HspecA. specialize (HspecA Hwf).
  assert (HlA : options_loc selfA w = l) by (unfold options_loc; by rewrite HA).
  rewrite HlA in HspecA.
  set (dA := map (resolve_item (project_config w)) (dict_update d kwargs)) in *.
  set (wA := set_heap (<[l := dA]> (heap w)) w) in *.
  assert (HdA : heap wA !! l = Some dA) by apply lookup_insert_eq.
  assert (HwfA : dict_wf dA) by (by apply dict_wf_resolve, dict_wf_update).
  assert (HokB : config_ok selfB wA) by (unfold config_ok; rewrite HB; by eexists).
  assert (HcB : config_options selfB wA = dA)
    by (unfold config_options; by rewrite HB, HdA).
  pose proof (_init_options_spec [] selfB wA HokB) as HspecB.
  rewrite HcB in HspecB. specialize (HspecB HwfA).
  assert (HlB : options_loc selfB wA = l) by (unfold options_loc; by rewrite HB).
  rewrite HlB, dict_update_nil in HspecB.
  eexists _, wA, _, _, _.
  split; [exact HspecA|]. split; [exact HspecB|].
  split; [reflexivity|]. split; [apply lookup_insert_eq|].
  rewrite dict_get_resolve. unfold dA.
  rewrite dict_get_resolve, dict_get_update, Hk by done.
  cbn [fmap option_fmap option_map].
  by rewrite !resolve_value_not_reference
    by (by rewrite ?resolve_value_not_reference).
Qed.

Lemma init_options_overrides_reach_next_instance_witness :
  let selfA := Samples.fresh_instance Samples.config_at_1 in
  let selfB := Samples.fresh_instance Samples.config_at_1 in
  let w := Samples.world_with [("x", VInt 1)] in
  exists selfA' wA selfB' wB dB,
    _init_options [("x", VInt 2)] selfA w = Return tt selfA' wA
    /\ _init_options [] selfB wA = Return tt selfB' wB
    /\ options selfB' = Some 1%positive
    /\ heap wB !! 1%positive = Some dB
    /\ dict_get dB "x" = Some (VInt 2).
Proof.
  apply (init_options_overrides_reach_next_instance [("x", VInt 2)]
           (Samples.fresh_instance Samples.config_at_1)
           (Samples.fresh_instance Samples.config_at_1)
           (Samples.world_with [("x", VInt 1)])
           1%positive [("x", VInt 1)] "x" (VInt 2)).
  - reflexivity.
  - reflexivity.
  - reflexivity.
  - apply dict_wf_decide. reflexivity.
  - apply dict_wf_decide. reflexivity.
  - reflexivity.
  - reflexivity.
Defined.

(** ** More on validation *)

(** The loop of [_validate_options] changes nothing; the only exception it
    can raise is the one for a missing [options] attribute. *)
Lemma collect_missing_frame cls items acc self w :
  (exists acc', collect_missing cls items acc self w = Return acc' self w)
  \/ collect_missing cls items acc self w
     = Raise (no_attribute cls "options") self w.
Proof.
  revert acc. induction items as [|[name config] items IH]; intros acc; simpl.
  - left. by eexists.
  - destruct (required_is_True config); [|apply IH].
    unfold_M. unfold self_options, deref.
    destruct (options self) as [l|]; [|by right].
    destruct (negb (dict_mem name _)); apply IH.
Qed.

Lemma collect_missing_none_required cls items acc self w :
  (forall item, item ∈ items -> required_is_True (snd item) = false) ->
  collect_missing cls items acc self w = Return acc self w.
Proof.
  revert acc. induction items as [|[name config] items IH]; intros acc Hall; simpl.
  - reflexivity.
  - pose proof (Hall (name, config) (list_elem_of_here _ _)) as Hreq.
    simpl in Hreq. rewrite Hreq.
    apply IH. intros item Hin. apply Hall. by apply list_elem_of_further.
Qed.

Lemma missing_required_of_nil opts d :
  missing_required_of opts d = []
  <-> (forall name config,
         (name, config) ∈ opts -> required_is_True config = true ->
         name ∈ dict_keys d).
Proof.
  split.
  - intros Hm name config Hin Hreq. apply dict_mem_keys.
    destruct (dict_mem name d) eqn:E; [done|].
    assert (Habs : name ∈ missing_required_of opts d)
      by (apply elem_of_missing_required_of; eauto).
    rewrite Hm in Habs. by apply elem_of_nil in Habs.
  - intros Hall. destruct (missing_required_of opts d) as [|n m] eqn:E; [done|].
    assert (Hn : n ∈ missing_required_of opts d)
      by (rewrite E; apply list_elem_of_here).
    apply elem_of_missing_required_of in Hn as (config & Hin & Hreq & Hmem).
    specialize (Hall n config Hin Hreq). apply dict_mem_keys in Hall.
    congruence.
Qed.

(** Validation returns in the state it was called in, or raises. *)
Lemma validate_options_frame_aux cls self w :
  _validate_options cls self w = Return tt self w
  \/ exists e, _validate_options cls self w = Raise e self w.
Proof.
  unfold _validate_options, get_task_options.
  destruct (task_options cls) as [opts|]; unfold_M; [|right; by eexists].
  destruct (collect_missing_frame cls opts [] self w) as [[acc ->]| ->].
  - destruct acc; [by left | right; by eexists].
  - right. by eexists.
Qed.

(** X5.  [_validate_options] is read-only: whether it returns or raises,
    for every task type and every instance, it leaves the instance and the
    world as they were; and what it raises is an [AssertionError] (no
    [task_options]), an [AttributeError] (no [options] yet) or a
    [TaskOptionsError]. *)
Theorem validate_options_changes_nothing cls self w :
  self_of (_validate_options cls self w) = self
  /\ world_of (_validate_options cls self w) = w
  /\ (forall e s w',
        _validate_options cls self w = Raise e s w' ->
        exn_cls e = AssertionError \/ exn_cls e = AttributeError
        \/ exn_cls e = TaskOptionsError).
Proof.
  unfold _validate_options, get_task_options.
  destruct (task_options cls) as [opts|]; unfold_M.
  - destruct (collect_missing_frame cls opts [] self w) as [[acc ->]| ->].
    + destruct acc; simpl; split_and!; try done.
      intros e ? ? [= <- _ _]. by right; right.
    + simpl. split_and!; try done. intros e ? ? [= <- _ _]. by right; left.
  - simpl. split_and!; try done. intros e ? ? [= <- _ _]. by left.
Qed.

(** X6.  Only the literal [True] makes an option required: when no
    declared option has [required] equal to [True] (the key may be absent,
    or hold [1], ['true'], ...), validation returns whatever the options
    are, and without reading them. *)
Theorem validate_options_requires_literal_True cls self w opts :
  task_options cls = Some opts ->
  (forall name config,
      (name, config) ∈ opts -> dict_get config "required" <> Some (VBool true)) ->
  _validate_options cls self w = Return tt self w.
Proof.
  intros Hopts Hnone. unfold _validate_options, get_task_options.
  rewrite Hopts. unfold_M. rewrite collect_missing_none_required; [done|].
  intros [name config] Hin. specialize (Hnone name config Hin).
  unfold required_is_True. simpl.
  destruct (dict_get config "required") as [[| [|] | | |]|]; try done.
Qed.

Lemma validate_options_requires_literal_True_witness :
  let cls := Task_subclass "Deploy"
               (Some [("path", [("required", VInt 1)]);
                      ("mode", [("required", VStr "true")]);
                      ("note", [])]) false in
  _validate_options cls (Samples.fresh_instance Samples.config_None)
                    Samples.empty_world
  = Return tt (Samples.fresh_instance Samples.config_None) Samples.empty_world.
Proof.
  apply (validate_options_requires_literal_True
           (Task_subclass "Deploy"
              (Some [("path", [("required", VInt 1)]);
                     ("mode", [("required", VStr "true")]);
                     ("note", [])]) false)
           (Samples.fresh_instance Samples.config_None) Samples.empty_world
           [("path", [("required", VInt 1)]);
            ("mode", [("required", VStr "true")]);
            ("note", [])]).
  - reflexivity.
  - intros name config Hin.
    repeat (apply elem_of_cons in Hin as [[= -> ->]|Hin]; [discriminate|]).
    by apply elem_of_nil in Hin.
Defined.

(** ** More on construction *)

Lemma new_world_lookup w l d :
  heap w !! l = Some d ->
  heap (new_world w) !! l = Some d /\ l <> fresh (dom (heap w)).
Proof.
  intros Hl.
  assert (Hne : l <> fresh (dom (heap w))).
  { intros ->. pose proof (is_fresh (dom (heap w))) as Hfresh.
    apply not_elem_of_dom in Hfresh. congruence. }
  split; [|done]. simpl. by rewrite lookup_insert_ne.
Qed.

(** [_init_options] always returns, and of the instance it only assigns
    [options]. *)
Lemma _init_options_self kwargs self w :
  exists l h, _init_options kwargs self w = Return tt (set_options l self) (set_heap h w).
Proof.
  unfold _init_options.
  destruct (tc_options (task_config self)); by eexists _, _.
Qed.

(** [__init__] on a task type that overrides no hook. *)
Lemma __init___Task_subclass_eq name opts sf tc oc fl kwargs w :
  (sf && negb (bool_decide (is_Some oc))) = false ->
  __init__ (Task_subclass name opts sf) tc oc fl kwargs w
  = match _init_options kwargs
            (set_logger "cumulusci.core.tasks" (new_instance tc oc fl w))
            (new_world w) with
    | Return _ s1 w1 =>
        match _validate_options (Task_subclass name opts sf) s1 w1 with
        | Return _ s2 w2 => (Return tt s2 w2, init_calls kwargs)
        | Raise e s2 w2 =>
            (Raise e s2 w2,
             [call_init_logger; call_init_mixins; call_init_options kwargs;
              call_validate_options])
        end
    | Raise e s1 w1 =>
        (Raise e s1 w1,
         [call_init_logger; call_init_mixins; call_init_options kwargs])
    end.
Proof.
  intros Hsf. unfold __init__.
  change (salesforce_task (Task_subclass name opts sf)) with sf. rewrite Hsf.
  unfold_T. unfold _init_logger, modify_self. simpl.
  unfold M_ret, ret. simpl.
  destruct (_init_options kwargs _ _) as [[] s1 w1|e s1 w1]; [|reflexivity].
  by destruct (_validate_options _ s1 w1) as [[] s2 w2|e s2 w2].
Qed.

(** X7.  [__init__] calls its six methods in the order of the source and
    stops at the first one that raises: for every task type and every
    argument, the calls made are an initial segment of that list, and all
    six have been made when construction returns. *)
Theorem init_calls_in_order cls tc oc fl kwargs w :
  snd (__init__ cls tc oc fl kwargs w) `prefix_of` init_calls kwargs
  /\ (forall self' w',
        fst (__init__ cls tc oc fl kwargs w) = Return tt self' w' ->
        snd (__init__ cls tc oc fl kwargs w) = init_calls kwargs).
Proof.
  unfold __init__, init_calls.
  destruct (salesforce_task cls && negb (bool_decide (is_Some oc))).
  - simpl. split; [apply prefix_nil | done].
  - unfold_T. unfold _init_logger, modify_self. simpl.
    destruct (_init_mixins cls _ _) as [[] s1 w1|]; simpl;
      [|split; [by eexists | done]].
    destruct (_init_options kwargs s1 w1) as [[] s2 w2|]; simpl;
      [|split; [by eexists | done]].
    destruct (_validate_options cls s2 w2) as [[] s3 w3|]; simpl;
      [|split; [by eexists | done]].
    destruct (_update_credentials cls s3 w3) as [[] s4 w4|]; simpl;
      [|split; [by eexists | done]].
    destruct (_init_task cls s4 w4) as [[] s5 w5|]; simpl;
      split; try done; by eexists.
Qed.

(** X8.  A construction that fails in validation has already resolved
    the options: when the task config has an options dict, that dict holds
    the merged and resolved options although no instance is returned, and
    [_update_credentials] and [_init_task] have not been called. *)
Theorem init_failing_validation_has_written_config
    name opts sf tc oc fl kwargs w l d :
  (sf && negb (bool_decide (is_Some oc))) = false ->
  tc_options tc = Some l ->
  heap w !! l = Some d ->
  dict_wf d ->
  let resolved := map (resolve_item (project_config w)) (dict_update d kwargs) in
  missing_required_of opts resolved <> [] ->
  exists self' w',
    __init__ (Task_subclass name (Some opts) sf) tc oc fl kwargs w
    = (Raise (Exn TaskOptionsError
                (options_error_message (Task_subclass name (Some opts) sf)
                   (missing_required_of opts resolved)))
             self' w',
       [call_init_logger; call_init_mixins; call_init_options kwargs;
        call_validate_options])
    /\ heap w' !! l = Some resolved.
Proof.
  intros Hsf Htc Hl Hwf resolved Hmiss.
  destruct (new_world_lookup w l d Hl) as [Hl' Hne].
  set (self0 := set_logger "cumulusci.core.tasks" (new_instance tc oc fl w)).
  assert (Hok : config_ok self0 (new_world w))
    by (unfold config_ok; simpl; rewrite Htc; by eexists).
  assert (Hcfg : config_options self0 (new_world w) = d).
  { unfold config_options. simpl. rewrite Htc.
    change (default [] (heap (new_world w) !! l) = d). by rewrite Hl'. }
  assert (Hloc : options_loc self0 (new_world w) = l)
    by (unfold options_loc; simpl; by rewrite Htc).
  pose proof (_init_options_spec kwargs self0 (new_world w) Hok) as Hinit.
  rewrite Hcfg, Hloc in Hinit. specialize (Hinit Hwf).
  rewrite (__init___Task_subclass_eq _ _ _ _ _ _ _ _ Hsf). fold self0.
  rewrite Hinit.
  erewrite _validate_options_spec; [|reflexivity|reflexivity].
  cbn [heap set_heap]. rewrite lookup_insert_eq.
  cbn [default from_option id project_config new_world set_heap]. fold resolved.
  destruct (missing_required_of opts resolved) eqn:E; [done|].
  eexists _, _. split; [reflexivity|]. simpl. apply lookup_insert_eq.
Qed.

Lemma init_failing_validation_has_written_config_witness :
  exists self' w',
    __init__ (Task_subclass "Deploy" (Some Samples.Deploy_options) false)
             Samples.config_at_1 None None [("path", VStr "/tmp")]
             (Samples.world_with [("note", VStr "$project_config.foo")])
    = (Raise (Exn TaskOptionsError
                "Deploy requires the options (mode) and no values were provided")
             self' w',
       [call_init_logger; call_init_mixins;
        call_init_options [("path", VStr "/tmp")]; call_validate_options])
    /\ heap w' !! 1%positive = Some [("note", VInt 42); ("path", VStr "/tmp")].
Proof.
  apply (init_failing_validation_has_written_config "Deploy"
           Samples.Deploy_options false Samples.config_at_1 None None
           [("path", VStr "/tmp")]
           (Samples.world_with [("note", VStr "$project_config.foo")])
           1%positive [("note", VStr "$project_config.foo")]).
  - reflexivity.
  - reflexivity.
  - reflexivity.
  - apply dict_wf_decide. reflexivity.
  - discriminate.
Defined.

(** X9.  What holds of an instance that [__init__] returned, for a task
    type that overrides no hook: all six methods were called; the logger
    is set; [result] is [None]; [return_values] is an empty dict that did
    not exist before; [options] is another dict, in which every declared
    option marked required is a key; and an org config is there when the
    task type requires one. *)
Theorem init_establishes_invariants name opts sf tc oc fl kwargs w self1 w1 tr :
  match tc_options tc with
  | Some l => exists d, heap w !! l = Some d /\ dict_wf d
  | None => True
  end ->
  __init__ (Task_subclass name opts sf) tc oc fl kwargs w
  = (Return tt self1 w1, tr) ->
  tr = init_calls kwargs
  /\ logger self1 = Some "cumulusci.core.tasks"
  /\ result self1 = VNone
  /\ task_config self1 = tc /\ org_config self1 = oc /\ flow self1 = fl
  /\ heap w !! return_values self1 = None
  /\ heap w1 !! return_values self1 = Some []
  /\ (sf = true -> is_Some oc)
  /\ exists l d declared,
       options self1 = Some l
       /\ l <> return_values self1
       /\ heap w1 !! l = Some d
       /\ opts = Some declared
       /\ (forall name' config,
             (name', config) ∈ declared -> required_is_True config = true ->
             name' ∈ dict_keys d).
Proof.
  intros Hcfg Hinit.
  destruct (sf && negb (bool_decide (is_Some oc))) eqn:Hsf.
  { unfold __init__ in Hinit.
    change (salesforce_task (Task_subclass name opts sf)) with sf in Hinit.
    rewrite Hsf in Hinit. discriminate. }
  rewrite (__init___Task_subclass_eq _ _ _ _ _ _ _ _ Hsf) in Hinit.
  set (self0 := set_logger "cumulusci.core.tasks" (new_instance tc oc fl w)) in *.
  set (rv := fresh (dom (heap w))).
  assert (Hrv : heap w !! rv = None) by apply not_elem_of_dom, is_fresh.
  assert (Hok : config_ok self0 (new_world w)).
  { unfold config_ok. simpl. destruct (tc_options tc) as [l|]; [|done].
    destruct Hcfg as (d & Hl & _).
    destruct (new_world_lookup w l d Hl) as [Hl' _]. by eexists. }
  assert (Hwf : dict_wf (config_options self0 (new_world w))).
  { unfold config_options. simpl. destruct (tc_options tc) as [l|];
      [|apply NoDup_nil_2].
    destruct Hcfg as (d & Hl & Hd).
    destruct (new_world_lookup w l d Hl) as [Hl' _].
    change (dict_wf (default [] (heap (new_world w) !! l))). by rewrite Hl'. }
  assert (Hloc : options_loc self0 (new_world w) <> rv).
  { unfold options_loc. simpl. destruct (tc_options tc) as [l|].
    - destruct Hcfg as (d & Hl & _). by destruct (new_world_lookup w l d Hl).
    - intros Heq. pose proof (is_fresh (dom (<[rv:=[]]> (heap w)))) as Hfresh.
      apply Hfresh. fold rv in Heq. rewrite Heq.
      apply elem_of_dom. rewrite lookup_insert_eq. by eexists. }
  rewrite (_init_options_spec kwargs self0 (new_world w) Hok Hwf) in Hinit.
  destruct opts as [declared|].
  - erewrite _validate_options_spec in Hinit; [|reflexivity|reflexivity].
    cbn [heap set_heap] in Hinit. rewrite lookup_insert_eq in Hinit.
    cbn [default from_option id] in Hinit.
    destruct (missing_required_of declared _) eqn:Hmiss; [|discriminate].
    injection Hinit as <- <- <-.
    split_and!; try done.
    + simpl. by rewrite lookup_insert_ne, lookup_insert_eq.
    + intros ->. simpl in Hsf. apply negb_false_iff in Hsf.
      by apply bool_decide_eq_true_1 in Hsf.
    + eexists _, _, declared. split; [reflexivity|]. split; [exact Hloc|].
      split; [apply lookup_insert_eq|]. split; [reflexivity|].
      by apply missing_required_of_nil.
  - exfalso. unfold _validate_options, get_task_options in Hinit. simpl in Hinit.
    discriminate.
Qed.

Lemma init_establishes_invariants_witness :
  let cls := Task_subclass "Deploy" (Some Samples.Deploy_options) false in
  let w := Samples.world_with [("path", VStr "/tmp")] in
  let r := __init__ cls Samples.config_at_1 None None [("mode", VInt 1)] w in
  let self1 := self_of (fst r) in
  let w1 := world_of (fst r) in
  snd r = init_calls [("mode", VInt 1)]
  /\ logger self1 = Some "cumulusci.core.tasks"
  /\ result self1 = VNone
  /\ task_config self1 = Samples.config_at_1
  /\ org_config self1 = None /\ flow self1 = None
  /\ heap w !! return_values self1 = None
  /\ heap w1 !! return_values self1 = Some []
  /\ (false = true -> is_Some (@None OrgConfig))
  /\ exists l d declared,
       options self1 = Some l
       /\ l <> return_values self1
       /\ heap w1 !! l = Some d
       /\ Some Samples.Deploy_options = Some declared
       /\ (forall name' config,
             (name', config) ∈ declared -> required_is_True config = true ->
             name' ∈ dict_keys d).
Proof.
  apply (init_establishes_invariants "Deploy" (Some Samples.Deploy_options)
           false Samples.config_at_1 None None [("mode", VInt 1)]
           (Samples.world_with [("path", VStr "/tmp")])).
  - exists [("path", VStr "/tmp")]. split; [reflexivity|].
    apply dict_wf_decide. reflexivity.
  - reflexivity.
Defined.

(** X10.  A task type whose [task_options] is [None] cannot be
    constructed: [get_task_options] fails its assertion inside
    [_validate_options], that is after the options have been resolved,
    and the two last methods are not called. *)
Theorem init_without_task_options_fails name sf tc oc fl kwargs w :
  (sf && negb (bool_decide (is_Some oc))) = false ->
  exists self' w',
    __init__ (Task_subclass name None sf) tc oc fl kwargs w
    = (Raise (Exn AssertionError
                ("'" +:+ name
                 +:+ "' needs a task_config or to override get task config!"))
             self' w',
       [call_init_logger; call_init_mixins; call_init_options kwargs;
        call_validate_options])
    /\ is_Some (options self').
Proof.
  intros Hsf. rewrite (__init___Task_subclass_eq _ _ _ _ _ _ _ _ Hsf).
  destruct (_init_options_self kwargs
              (set_logger "cumulusci.core.tasks" (new_instance tc oc fl w))
              (new_world w)) as (l & h & ->).
  eexists _, _. split; [reflexivity|]. by eexists.
Qed.

Lemma init_without_task_options_fails_witness :
  exists self' w',
    __init__ (Task_subclass "Deploy" None false) Samples.config_None None None
             [] Samples.empty_world
    = (Raise (Exn AssertionError
                "'Deploy' needs a task_config or to override get task config!")
             self' w',
       [call_init_logger; call_init_mixins; call_init_options [];
        call_validate_options])
    /\ is_Some (options self').
Proof.
  apply (init_without_task_options_fails "Deploy" false Samples.config_None
           None None [] Samples.empty_world).
  reflexivity.
Defined.

(** ** More on the call protocol *)

Lemma set_log_set_log lg lg' w : set_log lg' (set_log lg w) = set_log lg' w.
Proof. reflexivity. Qed.

(** [_log_begin], case by case. *)
Lemma _log_begin_spec cls self w :
  _log_begin cls self w
  = match logger self with
    | None => Raise (no_attribute cls "logger") self w
    | Some _ =>
        if salesforce_task cls && negb (bool_decide (is_Some (flow self))) then
          match org_config self with
          | Some oc =>
              Return tt self
                (set_log (log w ++ [record_beginning cls; record_user oc;
                                    record_org oc; record_blank]) w)
          | None =>
              Raise (Exn AttributeError
                       "'NoneType' object has no attribute 'username'")
                    self (set_log (log w ++ [record_beginning cls]) w)
          end
        else
          Return tt self
            (set_log (log w ++ [record_beginning cls; record_blank]) w)
    end.
Proof.
  unfold _log_begin. unfold_M. rewrite logger_info_spec.
  destruct (logger self) as [lg|] eqn:Hlg; [|reflexivity].
  destruct (salesforce_task cls && negb (bool_decide (is_Some (flow self)))).
  - destruct (org_config self) as [oc|]; [|reflexivity].
    rewrite logger_info_spec, Hlg, logger_info_spec, Hlg, logger_info_spec, Hlg.
    cbn [log set_log]. rewrite !set_log_set_log.
    by rewrite <- !app_assoc.
  - rewrite logger_info_spec, Hlg. cbn [log set_log].
    rewrite set_log_set_log. by rewrite <- app_assoc.
Qed.

(** X11.  On an instance with a logger, [_log_begin] only appends to the
    log, and what it appends depends on the flow: for a task type that
    requires an org, called outside a flow, the task name, the username
    and the org id of the org config, and a blank line; inside a flow, or
    for a task type that requires no org, the task name and the blank line
    only. *)
Theorem log_begin_records_org_only_outside_flow cls self w lg :
  logger self = Some lg ->
  (forall oc,
      salesforce_task cls = true -> flow self = None ->
      org_config self = Some oc ->
      _log_begin cls self w
      = Return tt self
          (set_log (log w ++ [record_beginning cls; record_user oc;
                              record_org oc; record_blank]) w))
  /\ (salesforce_task cls = false \/ is_Some (flow self) ->
      _log_begin cls self w
      = Return tt self
          (set_log (log w ++ [record_beginning cls; record_blank]) w)).
Proof.
  intros Hlg. rewrite _log_begin_spec, Hlg. split.
  - intros oc -> -> ->. reflexivity.
  - intros [->|[f ->]]; [reflexivity|].
    destruct (salesforce_task cls); reflexivity.
Qed.

Lemma log_begin_records_org_only_outside_flow_witness :
  _log_begin Samples.Query MoreSamples.org_instance Samples.ready_world
  = Return tt MoreSamples.org_instance
      (set_log [("Beginning task: %s", [VStr "Query"]);
                ("%15s %s", [VStr "As user:"; VStr "dev@example.com"]);
                ("%15s %s", [VStr "In org:"; VStr "00D000000000001"]);
                ("", [])]
               Samples.ready_world).
Proof.
  apply (proj1 (log_begin_records_org_only_outside_flow Samples.Query
                  MoreSamples.org_instance Samples.ready_world
                  "cumulusci.core.tasks" eq_refl)
               Samples.dev_org); reflexivity.
Defined.

(** X12.  An instance that [__init__] returned can be called: for a task
    type that overrides no hook, [_log_begin] does not fail (the logger is
    there, and so is the org config when the task type requires one), the
    action of [Task] returns [None], and the call returns the instance's
    [return_values] with [result] equal to [None], touching nothing but
    the log. *)
Theorem init_then_call_returns name opts sf tc oc fl kwargs w self1 w1 tr :
  __init__ (Task_subclass name opts sf) tc oc fl kwargs w
  = (Return tt self1 w1, tr) ->
  exists self2 w2,
    __call__ (Task_subclass name opts sf) self1 w1
    = (Return (return_values self1) self2 w2, [call_log_begin; call_run_task])
    /\ result self2 = VNone
    /\ return_values self2 = return_values self1
    /\ heap w2 = heap w1
    /\ project_config w2 = project_config w1.
Proof.
  intros Hinit.
  destruct (sf && negb (bool_decide (is_Some oc))) eqn:Hsf.
  { unfold __init__ in Hinit.
    change (salesforce_task (Task_subclass name opts sf)) with sf in Hinit.
    rewrite Hsf in Hinit. discriminate. }
  rewrite (__init___Task_subclass_eq _ _ _ _ _ _ _ _ Hsf) in Hinit.
  destruct (_init_options_self kwargs
              (set_logger "cumulusci.core.tasks" (new_instance tc oc fl w))
              (new_world w)) as (l & h & Hopt).
  rewrite Hopt in Hinit.
  destruct (validate_options_frame_aux (Task_subclass name opts sf)
              (set_options l
                 (set_logger "cumulusci.core.tasks" (new_instance tc oc fl w)))
              (set_heap h (new_world w))) as [Hv|(e & Hv)];
    rewrite Hv in Hinit; [|discriminate].
  injection Hinit as <- <- <-.
  pose proof (_log_begin_spec (Task_subclass name opts sf)
                (set_options l
                   (set_logger "cumulusci.core.tasks" (new_instance tc oc fl w)))
                (set_heap h (new_world w))) as Hlog.
  cbn [logger set_options set_logger flow org_config new_instance
       salesforce_task Task_subclass] in Hlog.
  assert (Hlog' : exists w0,
            _log_begin (Task_subclass name opts sf)
              (set_options l
                 (set_logger "cumulusci.core.tasks" (new_instance tc oc fl w)))
              (set_heap h (new_world w))
            = Return tt
                (set_options l
                   (set_logger "cumulusci.core.tasks" (new_instance tc oc fl w)))
                w0
            /\ heap w0 = h /\ project_config w0 = project_config w).
  { rewrite Hlog.
    destruct (sf && negb (bool_decide (is_Some fl))) eqn:Hfl.
    - destruct oc as [o|].
      + by eexists.
      + exfalso. apply andb_true_iff in Hfl as [-> _]. simpl in Hsf.
        discriminate.
    - by eexists. }
  destruct Hlog' as (w0 & Hlog0 & Hh & Hpc).
  eexists _, _. split.
  - apply (__call___action_returns _ _ _ _ _ VNone _ w0 Hlog0). reflexivity.
  - by split_and!.
Qed.

Lemma init_then_call_returns_witness :
  let r := __init__ Samples.Query Samples.config_at_1 (Some Samples.dev_org)
                    None [] (Samples.world_with [("x", VInt 1)]) in
  let self1 := self_of (fst r) in
  let w1 := world_of (fst r) in
  exists self2 w2,
    __call__ Samples.Query self1 w1
    = (Return (return_values self1) self2 w2, [call_log_begin; call_run_task])
    /\ result self2 = VNone
    /\ return_values self2 = return_values self1
    /\ heap w2 = heap w1
    /\ project_config w2 = project_config w1.
Proof.
  apply (init_then_call_returns "Query" (Some []) true Samples.config_at_1
           (Some Samples.dev_org) None []
           (Samples.world_with [("x", VInt 1)]) _ _
           (init_calls [])).
  reflexivity.
Defined.

(** X13.  When [_log_begin] fails, the action is not run.  The failure is
    an [AttributeError] (no logger yet, or a task type that requires an
    org, outside a flow, on an instance without org config); it goes to
    [_process_exception], once, and comes out of the call when the
    interceptor returns. *)
Theorem call_with_failing_log_begin cls self w e s0 w0 :
  _log_begin cls self w = Raise e s0 w0 ->
  exn_cls e = AttributeError
  /\ s0 = self
  /\ __call__ cls self w
     = (after_interceptor e
          (_process_exception cls e self (set_exc_info (Some e) w0)),
        [call_log_begin; call_process_exception e]).
Proof.
  intros Hlog.
  assert (Hcls : exn_cls e = AttributeError /\ s0 = self).
  { rewrite _log_begin_spec in Hlog.
    destruct (logger self); [|by injection Hlog as <- <- <-].
    destruct (salesforce_task cls && negb (bool_decide (is_Some (flow self))));
      [|discriminate].
    destruct (org_config self); [discriminate|].
    by injection Hlog as <- <- <-. }
  destruct Hcls as [Hcls ->]. split; [done|]. split; [done|].
  unfold __call__, try_except_Exception. unfold_T. rewrite Hlog.
  unfold isinstance_Exception. rewrite Hcls.
  by destruct (_process_exception cls e self (set_exc_info (Some e) w0)).
Qed.

Lemma call_with_failing_log_begin_witness :
  let e := Exn AttributeError "'NoneType' object has no attribute 'username'" in
  let w0 := set_log [("Beginning task: %s", [VStr "Query"])] Samples.ready_world in
  exn_cls e = AttributeError
  /\ MoreSamples.orphan_instance = MoreSamples.orphan_instance
  /\ __call__ Samples.Query MoreSamples.orphan_instance Samples.ready_world
     = (after_interceptor e
          (_process_exception Samples.Query e MoreSamples.orphan_instance
             (set_exc_info (Some e) w0)),
        [call_log_begin; call_process_exception e]).
Proof.
  apply (call_with_failing_log_begin Samples.Query MoreSamples.orphan_instance
           Samples.ready_world
           (Exn AttributeError "'NoneType' object has no attribute 'username'")
           MoreSamples.orphan_instance
           (set_log [("Beginning task: %s", [VStr "Query"])] Samples.ready_world)).
  reflexivity.
Defined.

(** X14.  When [_process_exception] itself raises, its exception comes
    out of the call in place of the one the action raised; the interceptor
    has still been called once, with the action's exception. *)
Theorem call_raises_what_interceptor_raises cls self w s0 w0 e s1 w1 e2 s2 w2 :
  _log_begin cls self w = Return tt s0 w0 ->
  _run_task cls s0 w0 = Raise e s1 w1 ->
  isinstance_Exception e = true ->
  _process_exception cls e s1 (set_exc_info (Some e) w1) = Raise e2 s2 w2 ->
  __call__ cls self w
  = (Raise e2 s2 w2,
     [call_log_begin; call_run_task; call_process_exception e]).
Proof.
  intros Hlog Hrun Hexc Hint.
  rewrite (__call___action_raises _ _ _ _ _ _ _ _ Hlog Hrun), Hexc, Hint.
  reflexivity.
Qed.

Lemma call_raises_what_interceptor_raises_witness :
  let w0 := set_log [("Beginning task: %s", [VStr "Deploy"]); ("", [])]
                    Samples.ready_world in
  __call__ MoreSamples.FailingInterceptor Samples.ready_instance
           Samples.ready_world
  = (Raise (Exn (UserException "RuntimeError") "while reporting")
           Samples.ready_instance (set_exc_info (Some Samples.boom) w0),
     [call_log_begin; call_run_task; call_process_exception Samples.boom]).
Proof.
  apply (call_raises_what_interceptor_raises MoreSamples.FailingInterceptor
           Samples.ready_instance Samples.ready_world Samples.ready_instance
           (set_log [("Beginning task: %s", [VStr "Deploy"]); ("", [])]
                    Samples.ready_world)
           Samples.boom Samples.ready_instance
           (set_log [("Beginning task: %s", [VStr "Deploy"]); ("", [])]
                    Samples.ready_world)).
  - reflexivity.
  - reflexivity.
  - reflexivity.
  - reflexivity.
Defined.

(** ** More on error reporting *)

(** X15.  With reporting disabled ([use_sentry] false, [None], [0], ...)
    the interceptor of [BaseTask] does nothing at all: a failing call
    re-raises the action's exception, no record is logged for the report,
    the reporting client receives no call and [sentry_event] is not
    assigned. *)
Theorem call_BaseTask_reporting_disabled
    sentry_reply init_sentry base self w s0 w0 e s1 w1 use_sentry :
  _log_begin (BaseTask sentry_reply init_sentry base) self w = Return tt s0 w0 ->
  _run_task base s0 w0 = Raise e s1 w1 ->
  isinstance_Exception e = true ->
  dict_get (project_config w1) "use_sentry" = Some use_sentry ->
  truthy use_sentry = false ->
  __call__ (BaseTask sentry_reply init_sentry base) self w
  = (Raise e s1 (set_exc_info (Some e) w1),
     [call_log_begin; call_run_task; call_process_exception e]).
Proof.
  intros Hlog Hrun Hexc Hus Hfalse.
  rewrite (__call___action_raises _ _ _ _ _ e s1 w1 Hlog Hrun), Hexc.
  simpl. unfold BaseTask__process_exception, project_config_getattr.
  unfold_M. cbn [project_config set_exc_info]. by rewrite Hus, Hfalse.
Qed.

Lemma call_BaseTask_reporting_disabled_witness :
  let w0 := set_log [("Beginning task: %s", [VStr "Deploy"]); ("", [])]
                    MoreSamples.quiet_world in
  __call__ (BaseTask Samples.sentry_ok (mret tt) Samples.Failing)
           Samples.ready_instance MoreSamples.quiet_world
  = (Raise Samples.boom Samples.ready_instance
           (set_exc_info (Some Samples.boom) w0),
     [call_log_begin; call_run_task; call_process_exception Samples.boom]).
Proof.
  apply (call_BaseTask_reporting_disabled Samples.sentry_ok (mret tt)
           Samples.Failing Samples.ready_instance MoreSamples.quiet_world
           Samples.ready_instance
           (set_log [("Beginning task: %s", [VStr "Deploy"]); ("", [])]
                    MoreSamples.quiet_world)
           Samples.boom Samples.ready_instance
           (set_log [("Beginning task: %s", [VStr "Deploy"]); ("", [])]
                    MoreSamples.quiet_world)
           (VBool false)).
  - reflexivity.
  - reflexivity.
  - reflexivity.
  - reflexivity.
  - reflexivity.
Defined.

(** X16.  When the reporting client fails on [tags_context], the call
    raises the client's exception in place of the action's; the client is
    not asked to capture anything and [sentry_event] is not assigned. *)
Theorem call_BaseTask_client_failure
    sentry_reply init_sentry base self w s0 w0 e s1 w1 use_sentry lg l e2 :
  _log_begin (BaseTask sentry_reply init_sentry base) self w = Return tt s0 w0 ->
  _run_task base s0 w0 = Raise e s1 w1 ->
  isinstance_Exception e = true ->
  dict_get (project_config w1) "use_sentry" = Some use_sentry ->
  truthy use_sentry = true ->
  logger s1 = Some lg ->
  options s1 = Some l ->
  let tags := sentry_tags base (org_config s1) (default [] (heap w1 !! l)) in
  sentry_reply (sentry_calls w1) (tags_context tags) = inl e2 ->
  exists w',
    __call__ (BaseTask sentry_reply init_sentry base) self w
    = (Raise e2 s1 w',
       [call_log_begin; call_run_task; call_process_exception e])
    /\ sentry_calls w' = sentry_calls w1 ++ [tags_context tags]
    /\ project_config w' = project_config w1
    /\ heap w' = heap w1.
Proof.
  intros Hlog Hrun Hexc Hus Htrue Hlg Hl tags Hreply.
  rewrite (__call___action_raises _ _ _ _ _ e s1 w1 Hlog Hrun), Hexc.
  simpl. unfold BaseTask__process_exception, project_config_getattr.
  unfold_M. cbn [project_config set_exc_info]. rewrite Hus, Htrue.
  rewrite logger_info_spec, Hlg. unfold self_options, deref. rewrite Hl.
  cbn [heap set_log set_exc_info]. fold tags.
  unfold sentry_invoke. cbn [sentry_calls set_log set_exc_info].
  rewrite Hreply. simpl. by eexists.
Qed.

Lemma call_BaseTask_client_failure_witness :
  let tags := [("task class", VStr "Deploy"); ("option_path", VStr "/tmp");
               ("option_mode", VNone)] in
  exists w',
    __call__ (BaseTask MoreSamples.sentry_down (mret tt) Samples.Failing)
             Samples.ready_instance Samples.ready_world
    = (Raise (Exn (UserException "ConnectionError") "sentry unreachable")
             Samples.ready_instance w',
       [call_log_begin; call_run_task; call_process_exception Samples.boom])
    /\ sentry_calls w' = [tags_context tags]
    /\ project_config w' = project_config Samples.ready_world
    /\ heap w' = heap Samples.ready_world.
Proof.
  apply (call_BaseTask_client_failure MoreSamples.sentry_down (mret tt)
           Samples.Failing Samples.ready_instance Samples.ready_world
           Samples.ready_instance
           (set_log [("Beginning task: %s", [VStr "Deploy"]); ("", [])]
                    Samples.ready_world)
           Samples.boom Samples.ready_instance
           (set_log [("Beginning task: %s", [VStr "Deploy"]); ("", [])]
                    Samples.ready_world)
           (VBool true) "cumulusci.core.tasks" 1%positive
           (Exn (UserException "ConnectionError") "sentry unreachable")).
  - reflexivity.
  - reflexivity.
  - reflexivity.
  - reflexivity.
  - reflexivity.
  - reflexivity.
  - reflexivity.
  - reflexivity.
Defined.

Lemma dict_get_option_tags (d : pydict value) k :
  dict_get (map option_tag d) ("option_" +:+ k) = dict_get d k.
Proof.
  induction d as [|[k' v'] d IH]; [done|].
  cbn [map option_tag fst snd dict_get].
  destruct (String.eqb_spec k k') as [->|Hne].
  - by rewrite String.eqb_refl.
  - destruct (String.eqb_spec ("option_" +:+ k) ("option_" +:+ k')) as [Heq|_];
      [|apply IH].
    apply (inj (String.append "option_")) in Heq. done.
Qed.

Lemma dict_get_option_tags_other (d : pydict value) key :
  (forall k, key <> "option_" +:+ k) -> dict_get (map option_tag d) key = None.
Proof.
  intros Hkey. apply dict_get_None_keys. rewrite dict_keys_option_tags.
  intros Hin. apply list_elem_of_In, in_map_iff in Hin as (k & Heq & _).
  by apply (Hkey k).
Qed.

(** X17.  Reading the tags back: every option is found under its name
    prefixed with [option_], with its own value; the task class and the
    two org tags are found under their keys whatever the options are
    called, so that no option can take the place of one of them; without
    an org config the two org tags are absent. *)
Theorem sentry_tags_lookup cls oc d :
  dict_wf d ->
  let tags := sentry_tags cls oc d in
  (forall k, dict_get tags ("option_" +:+ k) = dict_get d k)
  /\ dict_get tags "task class" = Some (VStr (class_name cls))
  /\ dict_get tags "org username" = username <$> oc
  /\ dict_get tags "scratch org" = (fun o => VBool (is_True (scratch o))) <$> oc.
Proof.
  intros Hwf tags. subst tags. rewrite (sentry_tags_spec cls oc d Hwf).
  split_and!.
  - intros k. rewrite dict_get_app.
    assert (Hid : dict_get (identity_tags cls oc) ("option_" +:+ k) = None)
      by apply dict_get_None_keys, option_tag_not_identity.
    rewrite Hid. apply dict_get_option_tags.
  - reflexivity.
  - rewrite dict_get_app. destruct oc; simpl; [reflexivity|].
    apply dict_get_option_tags_other. intros k. discriminate.
  - rewrite dict_get_app. destruct oc; simpl; [reflexivity|].
    apply dict_get_option_tags_other. intros k. discriminate.
Qed.

Lemma sentry_tags_lookup_witness :
  let d := [("task class", VStr "mine"); ("scratch org", VInt 7)] in
  let tags := sentry_tags Samples.Deploy (Some Samples.dev_org) d in
  (forall k, dict_get tags ("option_" +:+ k) = dict_get d k)
  /\ dict_get tags "task class" = Some (VStr "Deploy")
  /\ dict_get tags "org username" = Some (VStr "dev@example.com")
  /\ dict_get tags "scratch org" = Some (VBool true).
Proof.
  apply (sentry_tags_lookup Samples.Deploy (Some Samples.dev_org)
           [("task class", VStr "mine"); ("scratch org", VInt 7)]).
  apply dict_wf_decide. reflexivity.
Defined.

(** X18.  When [project_config.init_sentry()] raises, the construction
    of a [BaseTask] stops there: the [_init_mixins] of the next class is
    not run, the options are not resolved, and the exception comes out
    with the state that [init_sentry] left. *)
Theorem init_BaseTask_stops_when_sentry_fails
    sentry_reply init_sentry base tc oc fl kwargs w e s1 w1 :
  (salesforce_task base && negb (bool_decide (is_Some oc))) = false ->
  init_sentry (set_logger "cumulusci.core.tasks" (new_instance tc oc fl w))
              (new_world w)
  = Raise e s1 w1 ->
  __init__ (BaseTask sentry_reply init_sentry base) tc oc fl kwargs w
  = (Raise e s1 w1, [call_init_logger; call_init_mixins]).
Proof.
  intros Hsf Hsentry. unfold __init__.
  change (salesforce_task (BaseTask sentry_reply init_sentry base))
    with (salesforce_task base).
  rewrite Hsf. unfold_T. unfold _init_logger, modify_self. simpl.
  unfold BaseTask__init_mixins. unfold_M. by rewrite Hsentry.
Qed.

Lemma init_BaseTask_stops_when_sentry_fails_witness :
  let w := Samples.world_with [("x", VInt 1)] in
  __init__ (BaseTask Samples.sentry_ok MoreSamples.init_sentry_fails
                     Samples.Deploy)
           Samples.config_at_1 None None [("x", VInt 2)] w
  = (Raise (Exn (UserException "ConnectionError") "sentry unreachable")
           (set_logger "cumulusci.core.tasks"
              (new_instance Samples.config_at_1 None None w))
           (new_world w),
     [call_init_logger; call_init_mixins]).
Proof.
  apply (init_BaseTask_stops_when_sentry_fails Samples.sentry_ok
           MoreSamples.init_sentry_fails Samples.Deploy Samples.config_at_1
           None None [("x", VInt 2)] (Samples.world_with [("x", VInt 1)])).
  - reflexivity.
  - reflexivity.
Defined.
